(** * Ontology tagger: version reconciliation against BioPortal releases

    A shallow embedding of [src/utils.py] ([normalize_terms]) and
    [src/tagger.py] ([BioPortalClient], [OwlLexicon], [OntologyTagger]).

    Conventions of the embedding.
    - A Python [str] is a [string] whose characters are the code points
      0..255; [bytes] values (HTTP payloads, file contents) are strings
      too, and decoding is the identity.
    - [Optional[str]] is [option string]; Python truthiness of a string
      is non-emptiness ([truthy]), of an optional string [otruthy].
    - The remote service, the RDF parser and the HTTP transport are the
      fields of a [World]; every remote operation is logged in the trace
      of the [State] that the client threads through its calls.
    - A raised exception is the [Err] result of the monad [M]; effects
      performed before the exception stay in the state.
    - A path is a string, and [dir / name] appends a separator and the
      name; the disk is the files with their contents and the set of
      directories. *)

From Stdlib Require Import Ascii String NArith ZArith List Bool Lia.
From stdpp Require Import base option list strings gmap pretty.

Open Scope string_scope.

(** ** Python string primitives *)

Module PyStr.

Definition code (c : ascii) : N := N_of_ascii c.

(** [bool(s)] for a string. *)
Definition truthy (s : string) : bool := negb (String.eqb s "").

(** [bool(o)] for an [Optional[str]]. *)
Definition otruthy (o : option string) : bool :=
  match o with
  | Some s => truthy s
  | None => false
  end.

(** [o or d] for an [Optional[str]] [o] and a string [d]. *)
Definition or_else (o : option string) (d : string) : string :=
  match o with
  | Some s => if truthy s then s else d
  | None => d
  end.

(** [str.isspace] on one code point below 256. *)
Definition is_space (c : ascii) : bool :=
  let n := code c in
  ((9 <=? n) && (n <=? 13) || (28 <=? n) && (n <=? 32)
   || (n =? 133) || (n =? 160))%N.

(** The line boundaries of [str.splitlines] below 256, the pair CR LF
    apart. *)
Definition is_linebreak (c : ascii) : bool :=
  let n := code c in
  ((10 <=? n) && (n <=? 13) || (28 <=? n) && (n <=? 30) || (n =? 133))%N.

Definition lower_char (c : ascii) : ascii :=
  let n := code c in
  if ((65 <=? n) && (n <=? 90)
      || (192 <=? n) && (n <=? 222) && negb (n =? 215))%N
  then ascii_of_N (n + 32) else c.

(** [s.lower()] *)
Fixpoint lower (s : string) : string :=
  match s with
  | EmptyString => EmptyString
  | String c r => String (lower_char c) (lower r)
  end.

(** [s.lstrip()] *)
Fixpoint lstrip (s : string) : string :=
  match s with
  | EmptyString => EmptyString
  | String c r => if is_space c then lstrip r else s
  end.

(** [s.rstrip()] *)
Fixpoint rstrip (s : string) : string :=
  match s with
  | EmptyString => EmptyString
  | String c r =>
      let r' := rstrip r in
      if is_space c && String.eqb r' "" then EmptyString else String c r'
  end.

(** [s.strip()] *)
Definition strip (s : string) : string := rstrip (lstrip s).

(** [s.splitlines()]: [cur] is the line being read. *)
Fixpoint splitlines_from (cur s : string) : list string :=
  match s with
  | EmptyString => if truthy cur then [cur] else []
  | String c r =>
      if is_linebreak c then
        match r with
        | String c' r' =>
            if ((code c =? 13) && (code c' =? 10))%N
            then cur :: splitlines_from "" r'
            else cur :: splitlines_from "" r
        | EmptyString => cur :: splitlines_from "" r
        end
      else splitlines_from (cur ++ String c "") r
  end.

Definition splitlines (s : string) : list string := splitlines_from "" s.

(** [c in s] for a one-character [c]. *)
Fixpoint has_char (c : ascii) (s : string) : bool :=
  match s with
  | EmptyString => false
  | String a r => Ascii.eqb a c || has_char c r
  end.

(** The part of [s] after the last [c], when [c] occurs in [s]. *)
Fixpoint after_last (c : ascii) (s : string) : option string :=
  match s with
  | EmptyString => None
  | String a r =>
      match after_last c r with
      | Some t => Some t
      | None => if Ascii.eqb a c then Some r else None
      end
  end.

(** [s.rsplit(c, 1)[-1]] *)
Definition rsplit_last (c : ascii) (s : string) : string :=
  default s (after_last c s).

Fixpoint is_prefix (p s : string) : bool :=
  match p, s with
  | EmptyString, _ => true
  | String a p', String b s' => Ascii.eqb a b && is_prefix p' s'
  | String _ _, EmptyString => false
  end.

(** [p in s] *)
Fixpoint contains (p s : string) : bool :=
  is_prefix p s ||
  match s with
  | EmptyString => false
  | String _ r => contains p r
  end.

(** [s[:n]] *)
Fixpoint take (n : nat) (s : string) : string :=
  match n, s with
  | S n', String c r => String c (take n' r)
  | _, _ => EmptyString
  end.

(** [", ".join(l)] *)
Fixpoint join (sep : string) (l : list string) : string :=
  match l with
  | [] => ""
  | [x] => x
  | x :: r => x ++ sep ++ join sep r
  end.

End PyStr.
Import PyStr.

(** ** Short identifiers

    The expression [uri.rsplit("#", 1)[-1].rsplit("/", 1)[-1]], written
    out at tagger.py lines 193 and 202 (lexicon) and 321 (live
    candidate). *)

Definition extract_short_id (uri : string) : string :=
  rsplit_last "/" (rsplit_last "#" uri).

(** The rule in the words of the specification: the part after the last
    "#" if there is one, else the part after the last "/". *)
Definition spec_short_id (uri : string) : string :=
  if has_char "#" uri then rsplit_last "#" uri else rsplit_last "/" uri.

(** ** Data model *)

(** One element of the submission list of the service. The fields read
    by the code are [version] (a string or absent) and [submissionId]
    (an integer or absent). *)
Record Submission := {
  version : option string;
  submissionId : option Z
}.

(** [str(sub.get("version") or "")] *)
Definition version_str (sub : Submission) : string :=
  or_else (version sub) "".

(** [str(sub.get("version") or "latest")] *)
Definition version_or_latest (sub : Submission) : string :=
  or_else (version sub) "latest".

(** The [annotatedClass] object of a live match. *)
Record ClassDetails := {
  prefLabel : option string;
  at_id : option string
}.

Record Annotation := {
  annotatedClass : option ClassDetails
}.

(** [top.get("annotatedClass", {})] *)
Definition class_details (top : Annotation) : ClassDetails :=
  default {| prefLabel := None; at_id := None |} (annotatedClass top).

Record AnnotationOutcome := {
  input_text : string;
  standardized_term : option string;
  ontology_id : option string;
  ontology_version : option string;
  comment : string
}.

(** Terms of an RDF graph, and the statements of a parsed artifact in
    the order in which the graph yields them. *)
Inductive Node :=
| URIRef (s : string)
| BNode (s : string)
| Literal (s : string).

Definition node_str (n : Node) : string :=
  match n with
  | URIRef s | BNode s | Literal s => s
  end.

Definition Triple : Type := Node * Node * Node.

Definition RDFS_label : string :=
  "http://www.w3.org/2000/01/rdf-schema#label".

Definition is_label_predicate (p : Node) : bool :=
  match p with
  | URIRef s => String.eqb s RDFS_label
  | _ => false
  end.

(** The exceptions the code raises or lets through. *)
Inductive Exn :=
| ValueError (msg : string)
| OntologyVersionNotFound (ontology requested : string)
                          (available : list string)
| RuntimeError (msg : string)
| TransportError (msg : string)
| HTTPError (status : Z)
| OSError (path : string).

(** The message of [OntologyVersionNotFound.__init__]. *)
Definition version_not_found_message (ontology requested : string)
    (available : list string) : string :=
  "Version '" ++ requested ++ "' not found for ontology '" ++ ontology
  ++ "'. Available versions: "
  ++ (if truthy (join ", " available) then join ", " available else "none").

(** [OntologyVersionNotFound] is the only version error of the code. *)
Definition is_version_not_found (e : Exn) : bool :=
  match e with
  | OntologyVersionNotFound _ _ _ => true
  | _ => false
  end.

Inductive Result (A : Type) :=
| Ok (a : A)
| Err (e : Exn).
Arguments Ok {A} a.
Arguments Err {A} e.

Record Response := {
  status_code : Z;
  content_type : option string;
  content : string
}.

(** What lies outside the program: the terminology service behind
    [json_get], the transport behind [requests.get], and the parser
    behind [rdflib.Graph.parse]. The service answers the same question
    the same way for the length of a call. *)
Record World := {
  remote_submissions : string -> Result (list Submission);
  remote_annotator : string -> string -> Result (list Annotation);
  remote_download : string -> Result Response;
  rdf_parse : string -> option (list Triple)
}.

(** The remote operations, as logged when they are performed. *)
Inductive Event :=
| ListSubmissions (ontology : string)
| AnnotateText (text ontology : string)
| Download (url : string).

Definition is_list_submissions (e : Event) : bool :=
  match e with ListSubmissions _ => true | _ => false end.
Definition is_annotate_text (e : Event) : bool :=
  match e with AnnotateText _ _ => true | _ => false end.
Definition is_download (e : Event) : bool :=
  match e with Download _ => true | _ => false end.

Definition count_events (p : Event -> bool) (tr : list Event) : nat :=
  length (List.filter p tr).

(** The mutable surroundings of a call: the files and directories on
    disk, the [last_download_url] attribute of the client, and the log
    of remote operations, oldest first. *)
Record State := {
  files : gmap string string;
  dirs : gset string;
  last_download_url : option string;
  trace : list Event
}.

(** ** The monad of state and exceptions *)

Definition M (A : Type) : Type := State -> Result A * State.

Definition ret {A} (a : A) : M A := fun st => (Ok a, st).

Definition raise {A} (e : Exn) : M A := fun st => (Err e, st).

Definition bind {A B} (m : M A) (k : A -> M B) : M B :=
  fun st =>
    match m st with
    | (Ok a, st') => k a st'
    | (Err e, st') => (Err e, st')
    end.

Notation "'let*' x ':=' m 'in' k" := (bind m (fun x => k))
  (at level 10, x pattern, m at level 100, k at level 200).

Definition lift {A} (r : Result A) : M A := fun st => (r, st).

(** The state once the remote operation [e] is performed. *)
Definition logged (e : Event) (st : State) : State :=
  {| files := files st; dirs := dirs st;
     last_download_url := last_download_url st;
     trace := trace st ++ [e] |}.

Definition log (e : Event) : M unit := fun st => (Ok tt, logged e st).

Definition set_last_download_url (u : string) : M unit :=
  fun st =>
    (Ok tt, {| files := files st; dirs := dirs st;
               last_download_url := Some u;
               trace := trace st |}).

(** ** The file system *)

(** Is [p] a file or a directory of the state? *)
Definition on_disk (p : string) (st : State) : bool :=
  match files st !! p with
  | Some _ => true
  | None => bool_decide (p ∈ dirs st)
  end.

(** [Path.exists] *)
Definition path_exists (p : string) : M bool :=
  fun st => (Ok (on_disk p st), st).

(** [dest_dir.mkdir(parents=True, exist_ok=True)]: refused when the
    path is a file. *)
Definition mkdir (p : string) : M unit :=
  fun st =>
    match files st !! p with
    | Some _ => (Err (OSError p), st)
    | None =>
        (Ok tt, {| files := files st; dirs := {[p]} ∪ dirs st;
                   last_download_url := last_download_url st;
                   trace := trace st |})
    end.

(** [dest_path.write_bytes(data)]: refused when the path is a
    directory. *)
Definition write_bytes (p data : string) : M unit :=
  fun st =>
    if bool_decide (p ∈ dirs st) then (Err (OSError p), st)
    else
      (Ok tt, {| files := <[p := data]> (files st); dirs := dirs st;
                 last_download_url := last_download_url st;
                 trace := trace st |}).

(** [Path(p).read_text()] *)
Definition read_text (p : string) : M string :=
  fun st =>
    match files st !! p with
    | Some data => (Ok data, st)
    | None => (Err (OSError p), st)
    end.

(** [dest_dir / name], for a name that holds no separator. *)
Definition path_join (dir name : string) : string :=
  dir ++ "/" ++ name.

(** ** const.py *)

Definition BASE_URL : string := "https://data.bioontology.org".
Definition DEFAULT_DOWNLOADS_DIR : string := "downloads".

(** ** BioPortalClient *)

Record BioPortalClient := {
  api_key : string;
  base_url : string
}.

(** [s.rstrip("/")] *)
Fixpoint rstrip_slash (s : string) : string :=
  match s with
  | EmptyString => EmptyString
  | String c r =>
      let r' := rstrip_slash r in
      if Ascii.eqb c "/" && String.eqb r' "" then EmptyString
      else String c r'
  end.

(** [BioPortalClient.__init__] *)
Definition BioPortalClient_init (key url : string) : Result BioPortalClient :=
  if truthy key
  then Ok {| api_key := key; base_url := rstrip_slash url |}
  else Err (ValueError "api_key is required for BioPortal access.").

Definition nl : string := String (ascii_of_nat 10) "".

(** Keeps an optional string only when it is truthy: the test
    [if version:] and its like. *)
Definition nonempty (o : option string) : option string :=
  match o with
  | Some s => if truthy s then Some s else None
  | None => None
  end.

(** [a or b] for two optional strings. *)
Definition or_opt (a b : option string) : option string :=
  if otruthy a then a else b.

Section Client.

Context (w : World).

(** [BioPortalClient.list_submissions] *)
Definition list_submissions (ontology : string) : M (list Submission) :=
  let* _ := log (ListSubmissions ontology) in
  lift (remote_submissions w ontology).

(** [BioPortalClient.annotate_text], without extra parameters. *)
Definition annotate_text (text ontology : string) : M (list Annotation) :=
  let* _ := log (AnnotateText text ontology) in
  lift (remote_annotator w text ontology).

(** [requests.get(final_url, ...)] *)
Definition requests_get (url : string) : M Response :=
  let* _ := log (Download url) in
  lift (remote_download w url).

(** [resp.raise_for_status()] *)
Definition raise_for_status (resp : Response) : M unit :=
  if ((400 <=? status_code resp) && (status_code resp <? 600))%Z
  then raise (HTTPError (status_code resp))
  else ret tt.

(** The test of lines 129-130 for a JSON body in place of the file. *)
Definition looks_like_json (resp : Response) : bool :=
  contains "json" (lower (default "" (content_type resp)))
  || match content resp with
     | String c _ => Ascii.eqb c "{"
     | EmptyString => false
     end.

Definition json_payload_error (final_url : string) (resp : Response)
    (submission_id : Z) (resolved_version : string) : Exn :=
  ValueError
    ("Downloaded JSON metadata instead of OWL file. "
     ++ "URL: " ++ final_url ++ nl
     ++ "Content-Type: " ++ default "None" (content_type resp) ++ nl
     ++ "Submission ID used: " ++ pretty submission_id ++ nl
     ++ "Version: " ++ resolved_version ++ nl
     ++ "First 200 bytes: " ++ take 200 (content resp)).

(** Lines 78-90: the choice of the submission. *)
Definition select_submission (ontology : string) (version : option string)
    (submissions : list Submission) : Result Submission :=
  match submissions with
  | [] => Err (OntologyVersionNotFound ontology (or_else version "latest") [])
  | first :: _ =>
      match nonempty version with
      | Some v =>
          match List.filter (fun sub => String.eqb (version_str sub) v)
                            submissions with
          | [] =>
              Err (OntologyVersionNotFound ontology v
                     (map version_str submissions))
          | submission :: _ => Ok submission
          end
      | None => Ok first
      end
  end.

(** Lines 93-95: the identifier of the submission; zero is as good as
    none. *)
Definition submission_id_of (submission : Submission) : Result Z :=
  match submissionId submission with
  | None | Some 0%Z =>
      Err (RuntimeError "No submissionId found in submission payload.")
  | Some submission_id => Ok submission_id
  end.

(** Lines 98-142: the cached file if there is one, a download
    otherwise. *)
Definition fetch_artifact (c : BioPortalClient) (ontology : string)
    (submission_id : Z) (resolved_version dest_dir : string)
    : M (string * string) :=
  let download_url :=
    base_url c ++ "/ontologies/" ++ ontology ++ "/submissions/"
    ++ pretty submission_id ++ "/download" in
  let* _ := mkdir dest_dir in
  let dest_path :=
    path_join dest_dir (ontology ++ "_" ++ resolved_version ++ ".owl") in
  let* cached := path_exists dest_path in
  if cached then
    let* _ := set_last_download_url ("(cached) " ++ dest_path) in
    ret (dest_path, resolved_version)
  else
    let separator := if has_char "?" download_url then "&" else "?" in
    let final_url := download_url ++ separator ++ "apikey=" ++ api_key c in
    let* _ := set_last_download_url final_url in
    let* resp := requests_get final_url in
    let* _ := raise_for_status resp in
    if looks_like_json resp then
      raise (json_payload_error final_url resp submission_id
               resolved_version)
    else
      let* _ := write_bytes dest_path (content resp) in
      ret (dest_path, resolved_version).

(** [BioPortalClient.download_submission] *)
Definition download_submission (c : BioPortalClient) (ontology : string)
    (version : option string) (dest_dir : string) : M (string * string) :=
  let* submissions := list_submissions ontology in
  let* submission :=
    lift (select_submission ontology version submissions) in
  let resolved_version := version_or_latest submission in
  let* submission_id := lift (submission_id_of submission) in
  fetch_artifact c ontology submission_id resolved_version dest_dir.

End Client.

(** ** OwlLexicon *)

Record OwlLexicon := {
  _labels : gset string;
  _ids : gset string;
  _id_to_label : gmap string string
}.

Definition empty_lexicon : OwlLexicon :=
  {| _labels := ∅; _ids := ∅; _id_to_label := ∅ |}.

(** The body of the first loop of [OwlLexicon.__init__] on a statement
    whose predicate is [rdfs:label]. *)
Definition index_label (lx : OwlLexicon) (t : Triple) : OwlLexicon :=
  let '(subj, _, obj) := t in
  let label := strip (node_str obj) in
  if truthy label then
    {| _labels := {[lower label]} ∪ _labels lx;
       _ids := _ids lx;
       _id_to_label :=
         match subj with
         | URIRef ident =>
             <[lower (extract_short_id ident) := label]> (_id_to_label lx)
         | _ => _id_to_label lx
         end |}
  else lx.

(** The body of the second loop, on any statement. *)
Definition index_subject (lx : OwlLexicon) (t : Triple) : OwlLexicon :=
  let '(subj, _, _) := t in
  match subj with
  | URIRef ident =>
      {| _labels := _labels lx;
         _ids := {[lower (extract_short_id ident)]} ∪ _ids lx;
         _id_to_label := _id_to_label lx |}
  | _ => lx
  end.

(** The two passes over the parsed graph. *)
Definition build_lexicon (graph : list Triple) : OwlLexicon :=
  let labelled :=
    List.filter (fun t : Triple => is_label_predicate (snd (fst t))) graph in
  let lx := fold_left index_label labelled empty_lexicon in
  fold_left index_subject graph lx.

Definition parse_failure (owl_path : string) : Exn :=
  ValueError
    ("Failed to parse OWL file at '" ++ owl_path ++ "'. "
     ++ "The downloaded content may not be a valid ontology; "
     ++ "verify the version exists and the download link is correct.").

(** [OwlLexicon.__init__]: any failure of [graph.parse], a missing file
    included, is the parse failure. *)
Definition OwlLexicon_init (w : World) (owl_path : string) : M OwlLexicon :=
  fun st =>
    match files st !! owl_path with
    | Some data =>
        match rdf_parse w data with
        | Some graph => (Ok (build_lexicon graph), st)
        | None => (Err (parse_failure owl_path), st)
        end
    | None => (Err (parse_failure owl_path), st)
    end.

Definition has_label (lx : OwlLexicon) (label : string) : bool :=
  bool_decide (strip (lower label) ∈ _labels lx).

Definition has_id (lx : OwlLexicon) (ident : string) : bool :=
  bool_decide (strip (lower ident) ∈ _ids lx).

Definition get_label_by_id (lx : OwlLexicon) (ident : string)
    : option string :=
  _id_to_label lx !! strip (lower ident).

(** ** utils.normalize_terms *)

(** The inner loop: the lines of one text, stripped, the empty ones
    dropped. *)
Definition clean_lines (text : string) : list string :=
  List.filter truthy (map strip (splitlines text)).

(** The terms of the inline argument; a [None] element is skipped. *)
Definition inline_terms (terms : list (option string)) : list string :=
  flat_map (fun term : option string =>
              match term with
              | Some s => clean_lines s
              | None => []
              end) terms.

Definition normalize_terms (terms : option (list (option string)))
    (file_path : option string) : M (list string) :=
  match terms, file_path with
  | None, None => raise (ValueError "Provide either `terms` or `file_path`.")
  | _, _ =>
      let collected : list string := default [] (inline_terms <$> terms) in
      match file_path with
      | Some p =>
          let* text := read_text p in
          ret (collected ++ clean_lines text)%list
      | None => ret collected
      end
  end.

(** ** OntologyTagger *)

Record OntologyTagger := {
  client : BioPortalClient;
  downloads_dir : string
}.

(** Line 272: the version of the first submission, or "latest". *)
Definition latest_version_of (submissions : list Submission) : string :=
  match submissions with
  | first :: _ => version_or_latest first
  | [] => "latest"
  end.

(** The three variables that version resolution leaves for the loop
    over the terms. *)
Record Resolution := {
  resolved_version : option string;
  owl_lexicon : option OwlLexicon;
  version_fallback : bool
}.

(** Lines 325-339: is the candidate in the specified version, and the
    label the release gives its identifier. *)
Definition verify_candidate (lexicon : option OwlLexicon)
    (short_id pref_label : option string) : bool * option string :=
  match lexicon with
  | Some lx =>
      let '(by_id, owl_label) :=
        match nonempty short_id with
        | Some sid =>
            let found := has_id lx sid in
            (found, if found then get_label_by_id lx sid else None)
        | None => (false, None)
        end in
      match negb by_id, nonempty pref_label with
      | true, Some label => (has_label lx label, owl_label)
      | _, _ => (by_id, owl_label)
      end
  | None => (false, None)
  end.

(** Lines 319-321: the short identifier of the candidate. *)
Definition candidate_short_id (ontology_uri : option string)
    : option string :=
  extract_short_id <$> nonempty ontology_uri.

Definition not_matched (term : string) : AnnotationOutcome :=
  {| input_text := term;
     standardized_term := None;
     ontology_id := None;
     ontology_version := None;
     comment := "not matched at all" |}.

(** Lines 315-378: the outcome of a term whose top candidate is [top]. *)
Definition evaluate_candidate (version : option string)
    (on_version_missing latest_version : string) (res : Resolution)
    (term : string) (top : Annotation) : AnnotationOutcome :=
  let details := class_details top in
  let pref_label := prefLabel details in
  let short_id := candidate_short_id (at_id details) in
  let ontology_id := short_id in
  let '(in_specified_version, owl_label) :=
    verify_candidate (owl_lexicon res) short_id pref_label in
  let final_standardized_term :=
    if otruthy owl_label then owl_label else pref_label in
  let matched (ont_version : option string) (note : string) :=
    {| input_text := term;
       standardized_term := final_standardized_term;
       ontology_id := ontology_id;
       ontology_version := ont_version;
       comment := note |} in
  if otruthy version && negb (version_fallback res) && in_specified_version
  then
    matched (or_opt (resolved_version res) version)
            "matched in user specified version"
  else if otruthy version && version_fallback res then
    matched (Some latest_version)
            "requested version missing; matched in latest"
  else if otruthy version && negb in_specified_version then
    if String.eqb on_version_missing "latest" then
      matched (Some latest_version)
              "matched in latest, no match in specified version"
    else
      {| input_text := term;
         standardized_term := None;
         ontology_id := ontology_id;
         ontology_version := or_opt (resolved_version res) version;
         comment := "strict mode: not matched in specified version" |}
  else
    matched (Some latest_version) "matched in latest".

Section Tagger.

Context (w : World).

(** Lines 274-297: version resolution, once per call. *)
Definition resolve_version (t : OntologyTagger) (ontology : string)
    (version : option string) (on_version_missing : string)
    (submissions : list Submission) : M Resolution :=
  match nonempty version with
  | Some v =>
      match List.filter (fun sub => String.eqb (version_str sub) v)
                        submissions with
      | [] =>
          if String.eqb on_version_missing "latest" then
            ret {| resolved_version := None;
                   owl_lexicon := None;
                   version_fallback := true |}
          else
            raise (OntologyVersionNotFound ontology v
                     (map version_str submissions))
      | submission :: _ =>
          let* (owl_path, resolved) :=
            download_submission w (client t) ontology version
                                (downloads_dir t) in
          let* lexicon := OwlLexicon_init w owl_path in
          ret {| resolved_version := Some resolved;
                 owl_lexicon := Some lexicon;
                 version_fallback := false |}
      end
  | None =>
      ret {| resolved_version := None;
             owl_lexicon := None;
             version_fallback := false |}
  end.

(** Lines 302-378: the body of the loop, for one term. *)
Definition annotate_term (ontology : string) (version : option string)
    (on_version_missing latest_version : string) (res : Resolution)
    (term : string) : M AnnotationOutcome :=
  let* annotations := annotate_text w term ontology in
  match annotations with
  | [] => ret (not_matched term)
  | top :: _ =>
      ret (evaluate_candidate version on_version_missing latest_version
                              res term top)
  end.

(** The loop of line 301; [outcomes] is the list appended to. *)
Fixpoint annotate_each (ontology : string) (version : option string)
    (on_version_missing latest_version : string) (res : Resolution)
    (prepared_terms : list string) (outcomes : list AnnotationOutcome)
    : M (list AnnotationOutcome) :=
  match prepared_terms with
  | [] => ret outcomes
  | term :: rest =>
      let* outcome :=
        annotate_term ontology version on_version_missing latest_version
                      res term in
      annotate_each ontology version on_version_missing latest_version
                    res rest (outcomes ++ [outcome])%list
  end.

(** [OntologyTagger.annotate_terms] *)
Definition annotate_terms (t : OntologyTagger) (ontology : string)
    (terms : option (list (option string))) (file_path : option string)
    (version : option string) (on_version_missing : string)
    : M (list AnnotationOutcome) :=
  let* prepared_terms := normalize_terms terms file_path in
  match prepared_terms with
  | [] => ret []
  | _ :: _ =>
      let* submissions := list_submissions w ontology in
      let latest_version := latest_version_of submissions in
      let* res :=
        resolve_version t ontology version on_version_missing submissions
      in
      annotate_each ontology version on_version_missing latest_version
                    res prepared_terms []
  end.

End Tagger.

(** ** Vocabulary of the properties *)

(** What the loop makes of one term, given the answer of the live
    service for it. *)
Definition outcome_of (w : World) (ontology : string)
    (version : option string) (on_version_missing latest_version : string)
    (res : Resolution) (term : string) (o : AnnotationOutcome) : Prop :=
  match remote_annotator w term ontology with
  | Ok [] => o = not_matched term
  | Ok (top :: _) =>
      o = evaluate_candidate version on_version_missing latest_version
                             res term top
  | Err _ => False
  end.

(** The live service answers the query for [term]. *)
Definition answered (w : World) (ontology term : string) : Prop :=
  exists annotations, remote_annotator w term ontology = Ok annotations.

(** Is the requested version the version string of a submission? *)
Definition version_found (version : option string)
    (submissions : list Submission) : bool :=
  match nonempty version with
  | Some v => existsb (fun sub => String.eqb (version_str sub) v) submissions
  | None => false
  end.

(** Every label that the lexicon gives an identifier is a non-empty
    string. *)
Definition labels_nonempty (lx : OwlLexicon) : Prop :=
  forall k l, _id_to_label lx !! k = Some l -> truthy l = true.

(** ** A small service, for the examples

    The ontology CL has two releases; the older one holds the cell
    concept, labelled Cell, and nothing else. The live service knows
    the terms cell and neuron. *)

Module Demo.

Definition cell_uri : string := "http://purl.obolibrary.org/obo/CL_0000001".
Definition neuron_uri : string := "http://purl.obolibrary.org/obo/CL_0000540".

Definition releases : list Submission :=
  [ {| version := Some "2024-06-01"; submissionId := Some 9%Z |};
    {| version := Some "2023-01-01"; submissionId := Some 7%Z |} ].

Definition candidate (label uri : string) : Annotation :=
  {| annotatedClass :=
       Some {| prefLabel := Some label; at_id := Some uri |} |}.

Definition artifact : string := "<rdf:RDF/>".

Definition world : World :=
  {| remote_submissions o :=
       if String.eqb o "CL" then Ok releases else Ok [];
     remote_annotator text o :=
       if String.eqb text "cell" then Ok [candidate "cell" cell_uri]
       else if String.eqb text "neuron" then Ok [candidate "neuron" neuron_uri]
       else Ok [];
     remote_download url :=
       Ok {| status_code := 200;
             content_type := Some "application/rdf+xml";
             content := artifact |};
     rdf_parse data :=
       if String.eqb data artifact
       then Some [(URIRef cell_uri, URIRef RDFS_label, Literal " Cell ")]
       else None |}.

Definition fresh : State :=
  {| files := ∅; dirs := ∅; last_download_url := None; trace := [] |}.

Definition tagger : OntologyTagger :=
  {| client := {| api_key := "key"; base_url := BASE_URL |};
     downloads_dir := DEFAULT_DOWNLOADS_DIR |}.

Definition lexicon : OwlLexicon :=
  build_lexicon [(URIRef cell_uri, URIRef RDFS_label, Literal " Cell ")].

End Demo.

(** ** The rest of the client and of utils.py *)

(** [s.lstrip("/")] *)
Fixpoint lstrip_slash (s : string) : string :=
  match s with
  | EmptyString => EmptyString
  | String c r => if Ascii.eqb c "/" then lstrip_slash r else s
  end.

(** [BioPortalClient._url]; [urlencode] is [urllib.parse.urlencode], and
    an empty [params] is as good as none. *)
Definition _url (urlencode : list (string * string) -> string)
    (c : BioPortalClient) (path : string)
    (params : option (list (string * string))) : string :=
  let path := lstrip_slash path in
  let url := base_url c ++ "/" ++ path in
  match params with
  | Some (_ :: _ as params) => url ++ "?" ++ urlencode params
  | _ => url
  end.

Definition ENV_API_KEY : string := "BIOPORTAL_API_KEY".

(** [utils.get_api_key]; [env] is the environment once [load_dotenv]
    has run, and [os.getenv] gives the fallback only for a variable
    that is not set. *)
Definition get_api_key (env : gmap string string) (env_var : string)
    (fallback : option string) : Result string :=
  let key :=
    match env !! env_var with
    | Some value => Some value
    | None => fallback
    end in
  match nonempty key with
  | Some key => Ok key
  | None =>
      Err (RuntimeError
             ("Set the BioPortal API key in environment variable '"
              ++ env_var ++ "' or in a .env file."))
  end.

(** [AnnotationOutcome.to_dict]: the keys in the order of the source. *)
Definition to_dict (o : AnnotationOutcome) : list (string * option string) :=
  [ ("input_text", Some (input_text o));
    ("standardized_term", standardized_term o);
    ("ontology_id", ontology_id o);
    ("ontology_version", ontology_version o);
    ("comment", Some (comment o)) ].

(** What [outcomes_to_json] may be given: an object with [to_dict], a
    dictionary, or anything else. *)
Inductive Item :=
| HasToDict (o : AnnotationOutcome)
| IsDict (d : list (string * option string))
| Neither.

(** How a run of the command line, or of [outcomes_to_json], ends
    badly. *)
Inductive Failure :=
| SystemExit (msg : string)
| TypeError (msg : string)
| Raised (e : Exn).

Inductive Exit (A : Type) :=
| Completed (a : A)
| Failed (f : Failure).
Arguments Completed {A} a.
Arguments Failed {A} f.

(** The loop of [outcomes_to_json]; [serialized] is the list appended
    to. *)
Fixpoint serialize_each (outcomes : list Item)
    (serialized : list (list (string * option string)))
    : Exit (list (list (string * option string))) :=
  match outcomes with
  | [] => Completed serialized
  | HasToDict o :: rest => serialize_each rest (serialized ++ [to_dict o])
  | IsDict d :: rest => serialize_each rest (serialized ++ [d])
  | Neither :: _ =>
      Failed (TypeError
                "outcomes_to_json expects items with to_dict() or dictionaries.")
  end.

(** [utils.outcomes_to_json]; [dumps] is [json.dumps(_, indent=2)]. *)
Definition outcomes_to_json
    (dumps : list (list (string * option string)) -> string)
    (outcomes : list Item) : Exit string :=
  match serialize_each outcomes [] with
  | Completed serialized => Completed (dumps serialized)
  | Failed f => Failed f
  end.

(** ** main.py *)

(** The namespace that [parse_args] returns. *)
Record Args := {
  arg_ontology : string;
  arg_version : option string;
  arg_terms : option (list string);
  arg_file : option string;
  arg_downloads_dir : string
}.

(** [not args.terms and not args.file] *)
Definition nothing_to_annotate (args : Args) : bool :=
  match arg_terms args, arg_file args with
  | (None | Some []), None => true
  | _, _ => false
  end.

(** [main], from the parsed arguments on; the result is the text
    printed. *)
Definition main (w : World)
    (dumps : list (list (string * option string)) -> string)
    (env : gmap string string) (args : Args) : State -> Exit string * State :=
  fun st =>
    if nothing_to_annotate args then
      (Failed (SystemExit "Provide --terms or --file with terms to annotate."),
       st)
    else
      match get_api_key env ENV_API_KEY None with
      | Err e => (Failed (Raised e), st)
      | Ok key =>
          match BioPortalClient_init key BASE_URL with
          | Err e => (Failed (Raised e), st)
          | Ok c =>
              let tagger :=
                {| client := c; downloads_dir := arg_downloads_dir args |} in
              match annotate_terms w tagger (arg_ontology args)
                                   (map Some <$> arg_terms args)
                                   (arg_file args) (arg_version args)
                                   "error" st with
              | (Err e, st') => (Failed (Raised e), st')
              | (Ok outcomes, st') =>
                  (outcomes_to_json dumps (map HasToDict outcomes), st')
              end
          end
      end.

(** ** Clean terms *)

(** Does [p] hold of every character of [s]? *)
Fixpoint all_chars (p : ascii -> bool) (s : string) : bool :=
  match s with
  | EmptyString => true
  | String c r => p c && all_chars p r
  end.

(** A term as [normalize_terms] leaves it: not empty, with no blank at
    either end, on one line. *)
Definition clean_term (t : string) : Prop :=
  t <> "" /\ strip t = t
  /\ all_chars (fun c => negb (is_linebreak c)) t = true.

(** ** States and services for the further properties *)

(** The state once the remote operations [evs] are performed, in that
    order. *)
Definition logged_all (evs : list Event) (st : State) : State :=
  {| files := files st; dirs := dirs st;
     last_download_url := last_download_url st;
     trace := trace st ++ evs |}.

(** A service whose download answers with a JSON body in place of the
    artifact, and whose annotator is down for the term neuron. *)
Module Faulty.

Definition world : World :=
  {| remote_submissions := remote_submissions Demo.world;
     remote_annotator text o :=
       if String.eqb text "neuron" then Err (TransportError "timed out")
       else remote_annotator Demo.world text o;
     remote_download url :=
       Ok {| status_code := 200;
             content_type := Some "application/json";
             content := "{}" |};
     rdf_parse := rdf_parse Demo.world |}.

End Faulty.

(** The live queries for [terms], in order. *)
Definition queries (ontology : string) (terms : list string) : list Event :=
  map (fun term => AnnotateText term ontology) terms.

(** The six comments of the code. *)
Definition comments : list string :=
  [ "not matched at all";
    "matched in user specified version";
    "requested version missing; matched in latest";
    "matched in latest, no match in specified version";
    "strict mode: not matched in specified version";
    "matched in latest" ].

(** A run of [n] slashes. *)
Fixpoint slashes (n : nat) : string :=
  match n with
  | O => ""
  | S n => String "/" (slashes n)
  end.

Definition ends_with_slash (s : string) : Prop := exists r, s = r ++ "/".

(** The dictionary that [outcomes_to_json] makes of an item, if any. *)
Definition item_dict (i : Item) : option (list (string * option string)) :=
  match i with
  | HasToDict o => Some (to_dict o)
  | IsDict d => Some d
  | Neither => None
  end.

(** The comments that the strict policy can give. *)
Definition strict_comments : list string :=
  [ "not matched at all";
    "matched in user specified version";
    "strict mode: not matched in specified version";
    "matched in latest" ].

(** A command line for the examples: the key is in the environment, and
    the printer only counts the objects. *)
Module DemoCli.

Definition env : gmap string string := {[ ENV_API_KEY := "key" ]}.

Definition dumps (dicts : list (list (string * option string))) : string :=
  pretty (length dicts) ++ " objects".

Definition args : Args :=
  {| arg_ontology := "CL";
     arg_version := None;
     arg_terms := Some ["cell"; "unicorn horn"];
     arg_file := None;
     arg_downloads_dir := DEFAULT_DOWNLOADS_DIR |}.

End DemoCli.

(** * Properties *)

(** ** Strings *)

Lemma append_assoc (s t u : string) : (s ++ t) ++ u = s ++ (t ++ u).
Proof.
  induction s as [|a s IH]; [reflexivity|].
  change (String a ((s ++ t) ++ u) = String a (s ++ (t ++ u))).
  by rewrite IH.
Qed.

Lemma append_cons a (s t : string) : String a s ++ t = String a (s ++ t).
Proof. reflexivity. Qed.

Lemma has_char_app c s t :
  has_char c (s ++ t) = has_char c s || has_char c t.
Proof.
  induction s as [|a s IH]; [done|].
  rewrite append_cons. simpl. by rewrite IH, orb_assoc.
Qed.

Lemma after_last_None c s : after_last c s = None <-> has_char c s = false.
Proof.
  induction s as [|a s IH]; simpl; [done|].
  destruct (after_last c s) as [t|].
  - split; [done|]. intros H. apply orb_false_elim in H as [_ H].
    apply IH in H. done.
  - destruct IH as [IH _]. rewrite (IH eq_refl), orb_false_r.
    destruct (Ascii.eqb a c); done.
Qed.

Lemma after_last_Some c s t :
  after_last c s = Some t ->
  exists p, s = p ++ String c t /\ has_char c t = false.
Proof.
  revert t. induction s as [|a s IH]; simpl; intros t H; [done|].
  destruct (after_last c s) as [u|] eqn:E.
  - inversion H; subst u. destruct (IH t eq_refl) as (p & -> & Hp).
    by exists (String a p).
  - destruct (Ascii.eqb_spec a c) as [->|]; [|done].
    inversion H; subst t. exists "". split; [done|].
    by apply after_last_None.
Qed.

Lemma after_last_shorter c s t :
  after_last c s = Some t -> String.length t < String.length s.
Proof.
  revert t. induction s as [|a s IH]; simpl; intros t H; [done|].
  destruct (after_last c s) as [u|].
  - inversion H; subst u. specialize (IH t eq_refl). lia.
  - destruct (Ascii.eqb a c); [|done]. inversion H; subst. lia.
Qed.

Lemma rsplit_last_absent c s : has_char c s = false -> rsplit_last c s = s.
Proof.
  intros H. apply after_last_None in H. unfold rsplit_last. by rewrite H.
Qed.

(** The short identifier is a suffix of the identifier that holds no
    separator and starts right after one, or is the whole identifier. *)
Lemma extract_short_id_suffix uri :
  exists p,
    uri = p ++ extract_short_id uri
    /\ has_char "#" (extract_short_id uri) = false
    /\ has_char "/" (extract_short_id uri) = false
    /\ (p = "" \/ exists q, p = q ++ "#" \/ p = q ++ "/").
Proof.
  unfold extract_short_id, rsplit_last.
  destruct (after_last "#" uri) as [t1|] eqn:E1; simpl.
  - destruct (after_last_Some _ _ _ E1) as (p1 & -> & H1).
    destruct (after_last "/" t1) as [t2|] eqn:E2; simpl.
    + destruct (after_last_Some _ _ _ E2) as (p2 & -> & H2).
      exists (p1 ++ String "#" p2 ++ "/"). repeat split.
      * by rewrite !append_assoc.
      * rewrite has_char_app in H1. simpl in H1.
        apply orb_false_elim in H1 as [_ H1]. done.
      * done.
      * right. exists (p1 ++ String "#" p2). right.
        by rewrite !append_assoc.
    + exists (p1 ++ "#"). repeat split.
      * by rewrite append_assoc.
      * done.
      * by apply after_last_None.
      * right. exists p1. by left.
  - apply after_last_None in E1.
    destruct (after_last "/" uri) as [t2|] eqn:E2; simpl.
    + destruct (after_last_Some _ _ _ E2) as (p2 & -> & H2).
      exists (p2 ++ "/"). repeat split.
      * by rewrite append_assoc.
      * rewrite has_char_app in E1. simpl in E1.
        apply orb_false_elim in E1 as [_ E1]. done.
      * done.
      * right. exists p2. by right.
    + exists "". repeat split; [done| |by left].
      by apply after_last_None.
Qed.

(** When the two rules agree. *)
Lemma extract_short_id_agrees uri :
  extract_short_id uri = spec_short_id uri
  <-> has_char "#" uri = false
      \/ has_char "/" (rsplit_last "#" uri) = false.
Proof.
  unfold extract_short_id, spec_short_id.
  destruct (has_char "#" uri) eqn:Hh.
  - split.
    + intros H. right.
      destruct (has_char "/" (rsplit_last "#" uri)) eqn:Hs; [|done].
      exfalso. unfold rsplit_last at 1 in H.
      destruct (after_last "/" (rsplit_last "#" uri)) as [t|] eqn:E.
      * apply after_last_shorter in E. simpl in H. rewrite H in E. lia.
      * apply after_last_None in E. congruence.
    + intros [H|H]; [done|]. by apply rsplit_last_absent.
  - split; [by left|]. intros _. by rewrite (rsplit_last_absent "#" uri).
Qed.

(** ** Remote operations and the trace *)

Lemma count_events_app p tr1 tr2 :
  count_events p (tr1 ++ tr2) = count_events p tr1 + count_events p tr2.
Proof. unfold count_events. by rewrite List.filter_app, length_app. Qed.

Lemma count_events_none p tr :
  Forall (fun e => p e = false) tr -> count_events p tr = 0.
Proof.
  unfold count_events. induction 1 as [|e tr He _ IH]; simpl; [done|].
  by rewrite He.
Qed.

Lemma list_submissions_run w ontology st :
  list_submissions w ontology st
  = (remote_submissions w ontology, logged (ListSubmissions ontology) st).
Proof. reflexivity. Qed.

Lemma annotate_text_run w text ontology st :
  annotate_text w text ontology st
  = (remote_annotator w text ontology, logged (AnnotateText text ontology) st).
Proof. reflexivity. Qed.

Lemma normalize_terms_state terms file_path st r st' :
  normalize_terms terms file_path st = (r, st') -> st' = st.
Proof.
  unfold normalize_terms, bind, read_text, ret, raise.
  destruct terms, file_path as [p|]; simpl; intros H;
    try destruct (files st !! p); congruence.
Qed.

Lemma OwlLexicon_init_state w owl_path st r st' :
  OwlLexicon_init w owl_path st = (r, st') -> st' = st.
Proof.
  unfold OwlLexicon_init. intros H.
  destruct (files st !! owl_path) as [data|]; [|congruence].
  destruct (rdf_parse w data); congruence.
Qed.

(** ** The loop over the terms *)

Section Loop.

Context (w : World) (ontology : string) (version : option string)
        (on_version_missing latest_version : string) (res : Resolution).

Lemma evaluate_candidate_input_text term top :
  input_text (evaluate_candidate version on_version_missing latest_version
                                 res term top) = term.
Proof.
  unfold evaluate_candidate.
  destruct (verify_candidate _ _ _) as [in_spec owl_label].
  repeat match goal with
         | |- context [if ?b then _ else _] => destruct b
         end; reflexivity.
Qed.

Lemma outcome_of_input_text term o : outcome_of w ontology version on_version_missing latest_version res
             term o ->
  input_text o = term.
Proof.
  unfold outcome_of.
  destruct (remote_annotator w term ontology) as [[|top rest]|e];
    intros H; [by subst| |done].
  subst o. apply evaluate_candidate_input_text.
Qed.

Lemma annotate_term_run term st :
  annotate_term w ontology version on_version_missing latest_version res
                term st
  = (match remote_annotator w term ontology with
     | Ok [] => Ok (not_matched term)
     | Ok (top :: _) =>
         Ok (evaluate_candidate version on_version_missing latest_version
                                res term top)
     | Err e => Err e
     end, logged (AnnotateText term ontology) st).
Proof.
  unfold annotate_term, bind. rewrite annotate_text_run.
  by destruct (remote_annotator w term ontology) as [[|top rest]|e].
Qed.

(** The loop performs one live query per term it reaches and nothing
    else; when it returns, it has appended one outcome per term, in
    order. *)
Lemma annotate_each_run prepared : forall acc st r st',
  annotate_each w ontology version on_version_missing latest_version res
                prepared acc st = (r, st') ->
  files st' = files st /\ dirs st' = dirs st
  /\ last_download_url st' = last_download_url st
  /\ (exists evs, trace st' = (trace st ++ evs)%list
                  /\ Forall (fun e => is_annotate_text e = true) evs)
  /\ match r with
     | Ok outcomes =>
         exists news, outcomes = (acc ++ news)%list
                      /\ Forall2 (outcome_of w ontology version on_version_missing
                                   latest_version res) prepared news
     | Err _ => True
     end.
Proof.
  induction prepared as [|term rest IH]; intros acc st r st' H.
  - inversion H; subst. repeat split; try done.
    + exists []. by rewrite app_nil_r.
    + exists []. by rewrite app_nil_r.
  - simpl in H. unfold bind in H. rewrite annotate_term_run in H.
    destruct (remote_annotator w term ontology) as [[|top tl]|e] eqn:E.
    + apply IH in H as (Hf & Hd & Hu & (evs & Ht & He) & Hr).
      repeat split; try done.
      * exists (AnnotateText term ontology :: evs).
        split; [by rewrite Ht; simpl; rewrite <- app_assoc|].
        by constructor.
      * destruct r as [outcomes|]; [|done].
        destruct Hr as (news & -> & Hn).
        exists (not_matched term :: news). split.
        { by rewrite <- app_assoc. }
        constructor; [|done]. unfold outcome_of. by rewrite E.
    + apply IH in H as (Hf & Hd & Hu & (evs & Ht & He) & Hr).
      repeat split; try done.
      * exists (AnnotateText term ontology :: evs).
        split; [by rewrite Ht; simpl; rewrite <- app_assoc|].
        by constructor.
      * destruct r as [outcomes|]; [|done].
        destruct Hr as (news & -> & Hn).
        eexists (_ :: news). split.
        { by rewrite <- app_assoc. }
        constructor; [|done]. unfold outcome_of. by rewrite E.
    + inversion H; subst. repeat split; try done.
      exists [AnnotateText term ontology]. split; [done|].
      by constructor.
Qed.

(** The loop returns when every live query is answered. *)
Lemma annotate_each_total prepared : forall acc st,
  Forall (answered w ontology) prepared ->
  exists outcomes st',
    annotate_each w ontology version on_version_missing latest_version res
                  prepared acc st = (Ok outcomes, st').
Proof.
  induction prepared as [|term rest IH]; intros acc st Hall.
  - by exists acc, st.
  - inversion Hall as [|? ? [annotations Ha] Hrest]; subst.
    simpl. unfold bind. rewrite annotate_term_run, Ha.
    destruct annotations as [|top tl]; by apply IH.
Qed.

Lemma outcomes_input_text prepared news :
  Forall2 (outcome_of w ontology version on_version_missing
                                   latest_version res) prepared news -> map input_text news = prepared.
Proof.
  induction 1 as [|term o prepared news Ho _ IH]; simpl; [done|].
  by rewrite IH, (outcome_of_input_text _ _ Ho).
Qed.

End Loop.

(** ** The cache of downloaded artifacts *)

Ltac case_inner H :=
  match type of H with
  | context [match ?x with _ => _ end] =>
      lazymatch x with
      | context [match _ with _ => _ end] => fail
      | _ => destruct x eqn:?
      end
  end.

Ltac unfold_fetch :=
  unfold fetch_artifact, bind, ret, raise, lift, mkdir, path_exists,
    write_bytes, set_last_download_url, raise_for_status, requests_get, log,
    logged.

Lemma length_append (s t : string) :
  String.length (s ++ t) = String.length s + String.length t.
Proof.
  induction s as [|a s IH]; [done|]. rewrite append_cons. simpl. by rewrite IH.
Qed.

(** The cache file is not the cache directory. *)
Lemma path_join_ne dir name : path_join dir name <> dir.
Proof.
  unfold path_join. intros H. apply (f_equal String.length) in H.
  rewrite length_append, append_cons in H. simpl in H. lia.
Qed.

Lemma count_events_logged p e st :
  count_events p (trace (logged e st))
  = count_events p (trace st) + (if p e then 1 else 0).
Proof.
  unfold logged; simpl. rewrite count_events_app. unfold count_events; simpl.
  by destruct (p e).
Qed.

Lemma on_disk_mkdir p d fs ds u tr st :
  p <> d -> files st = fs -> dirs st = ds ->
  on_disk p {| files := fs; dirs := {[d]} ∪ ds;
               last_download_url := u; trace := tr |}
  = on_disk p st.
Proof.
  intros Hne Hf Hd. subst fs ds. unfold on_disk; simpl.
  destruct (files st !! p); [done|].
  apply bool_decide_ext. rewrite elem_of_union, elem_of_singleton. tauto.
Qed.

Lemma on_disk_file p st : is_Some (files st !! p) -> on_disk p st = true.
Proof. intros [x Hx]. unfold on_disk. by rewrite Hx. Qed.

(** One run of lines 98-142. It lists no submissions and annotates
    nothing; it downloads only when the cache file is not on disk; and
    when it returns, the cache file is on disk and the cache directory
    is no file. *)
Lemma fetch_artifact_run w c ontology id v dest_dir st r st' :
  fetch_artifact w c ontology id v dest_dir st = (r, st') ->
  let p := path_join dest_dir (ontology ++ "_" ++ v ++ ".owl") in
  count_events is_list_submissions (trace st')
  = count_events is_list_submissions (trace st)
  /\ count_events is_annotate_text (trace st')
     = count_events is_annotate_text (trace st)
  /\ (on_disk p st = true ->
      st' = {| files := files st; dirs := {[dest_dir]} ∪ dirs st;
               last_download_url := Some ("(cached) " ++ p);
               trace := trace st |}
      \/ exists e, r = Err e /\ st' = st)
  /\ (on_disk p st = false -> forall q u, r = Ok (q, u) ->
      count_events is_download (trace st')
      = S (count_events is_download (trace st)))
  /\ forall q u, r = Ok (q, u) ->
      q = p /\ u = v /\ files st' !! dest_dir = None /\ on_disk p st' = true.
Proof.
  intros H p. revert H. unfold_fetch. intros H. simpl in H.
  assert (Hne : p <> dest_dir) by apply path_join_ne.
  fold p in H.
  repeat (case_inner H; simpl in H).
  all: injection H as Hr Hs; subst r st'; simpl.
  all: repeat match goal with
         | H : on_disk _ (Build_State _ _ _ _) = _ |- _ =>
             rewrite (on_disk_mkdir p dest_dir _ _ _ _ st Hne eq_refl eq_refl)
               in H
         end.
  all: rewrite ?count_events_app; unfold count_events; simpl.
  all: repeat split; try lia; try congruence; eauto.
  all: try (intros q u [= <- <-]); try done.
  all: try (by rewrite lookup_insert_ne).
  all: try (apply on_disk_file; simpl; rewrite lookup_insert_eq; eauto).
  all: try (by rewrite (on_disk_mkdir p dest_dir _ _ _ _ st Hne eq_refl eq_refl)).
Qed.

(** A cache file on disk is returned as it is. *)
Lemma fetch_artifact_cached w c ontology id v dest_dir st :
  let p := path_join dest_dir (ontology ++ "_" ++ v ++ ".owl") in
  files st !! dest_dir = None ->
  on_disk p st = true ->
  fetch_artifact w c ontology id v dest_dir st
  = (Ok (p, v),
     {| files := files st; dirs := {[dest_dir]} ∪ dirs st;
        last_download_url := Some ("(cached) " ++ p);
        trace := trace st |}).
Proof.
  intros p Hd Hp. unfold_fetch. rewrite Hd. simpl. fold p.
  by rewrite (on_disk_mkdir p dest_dir _ _ _ _ st (path_join_ne _ _)
                eq_refl eq_refl), Hp.
Qed.

(** [download_submission], step by step. *)
Lemma download_submission_run w c ontology version dest_dir st :
  download_submission w c ontology version dest_dir st
  = let st1 := logged (ListSubmissions ontology) st in
    match remote_submissions w ontology with
    | Err e => (Err e, st1)
    | Ok submissions =>
        match select_submission ontology version submissions with
        | Err e => (Err e, st1)
        | Ok submission =>
            match submission_id_of submission with
            | Err e => (Err e, st1)
            | Ok id =>
                fetch_artifact w c ontology id (version_or_latest submission)
                               dest_dir st1
            end
        end
    end.
Proof.
  unfold download_submission, bind. rewrite list_submissions_run.
  destruct (remote_submissions w ontology) as [submissions|e]; [|done].
  unfold lift.
  destruct (select_submission ontology version submissions) as [sub|e];
    [|done].
  by destruct (submission_id_of sub).
Qed.

(** [download_submission] fetches the submission list once, whatever
    comes of the call, and annotates nothing. *)
Lemma download_submission_events w c ontology version dest_dir st r st' :
  download_submission w c ontology version dest_dir st = (r, st') ->
  count_events is_list_submissions (trace st')
  = S (count_events is_list_submissions (trace st))
  /\ count_events is_annotate_text (trace st')
     = count_events is_annotate_text (trace st).
Proof.
  rewrite download_submission_run. cbv zeta.
  set (st1 := logged (ListSubmissions ontology) st).
  assert (Hl : count_events is_list_submissions (trace st1)
               = S (count_events is_list_submissions (trace st)))
    by (unfold st1; rewrite count_events_logged; simpl; lia).
  assert (Ha : count_events is_annotate_text (trace st1)
               = count_events is_annotate_text (trace st))
    by (unfold st1; rewrite count_events_logged; simpl; lia).
  clearbody st1.
  destruct (remote_submissions w ontology) as [submissions|e].
  2: { intros [= <- <-]. lia. }
  destruct (select_submission ontology version submissions) as [sub|e].
  2: { intros [= <- <-]. lia. }
  destruct (submission_id_of sub) as [id|e].
  2: { intros [= <- <-]. lia. }
  intros H. apply fetch_artifact_run in H as (H1 & H2 & _). lia.
Qed.

(** ** Version resolution *)

Lemma filter_nil_existsb {A} (f : A -> bool) (l : list A) :
  List.filter f l = [] <-> existsb f l = false.
Proof.
  induction l as [|a l IH]; simpl; [done|].
  destruct (f a); simpl; [split; discriminate|done].
Qed.

Lemma existsb_version v submissions :
  existsb (fun sub => String.eqb (version_str sub) v) submissions = false
  <-> ~ In v (map version_str submissions).
Proof.
  rewrite <- not_true_iff_false, existsb_exists, in_map_iff.
  split; intros H [sub Hs]; apply H; exists sub.
  - destruct Hs as [<- Hin]. split; [done|]. apply String.eqb_refl.
  - destruct Hs as [Hin Heq]. apply String.eqb_eq in Heq. done.
Qed.

Section Resolution.

Context (w : World) (t : OntologyTagger) (ontology : string)
        (version : option string) (on_version_missing : string)
        (submissions : list Submission).

Lemma resolve_version_unrequested st :
  nonempty version = None ->
  resolve_version w t ontology version on_version_missing submissions st
  = (Ok {| resolved_version := None; owl_lexicon := None;
           version_fallback := false |}, st).
Proof. intros H. unfold resolve_version. by rewrite H. Qed.

Lemma resolve_version_fallback v st :
  nonempty version = Some v ->
  ~ In v (map version_str submissions) ->
  on_version_missing = "latest" ->
  resolve_version w t ontology version on_version_missing submissions st
  = (Ok {| resolved_version := None; owl_lexicon := None;
           version_fallback := true |}, st).
Proof.
  intros Hv Hin ->. unfold resolve_version. rewrite Hv.
  apply existsb_version, filter_nil_existsb in Hin. by rewrite Hin.
Qed.

Lemma resolve_version_strict v st :
  nonempty version = Some v ->
  ~ In v (map version_str submissions) ->
  on_version_missing <> "latest" ->
  resolve_version w t ontology version on_version_missing submissions st
  = (Err (OntologyVersionNotFound ontology v (map version_str submissions)),
     st).
Proof.
  intros Hv Hin Hp. unfold resolve_version. rewrite Hv.
  apply existsb_version, filter_nil_existsb in Hin. rewrite Hin.
  by apply String.eqb_neq in Hp as ->.
Qed.

(** When the requested version is found, resolution is the download
    followed by the construction of the lexicon. *)
Lemma resolve_version_found st :
  version_found version submissions = true ->
  resolve_version w t ontology version on_version_missing submissions st
  = match download_submission w (client t) ontology version
                              (downloads_dir t) st with
    | (Ok (owl_path, resolved), st1) =>
        match OwlLexicon_init w owl_path st1 with
        | (Ok lexicon, st2) =>
            (Ok {| resolved_version := Some resolved;
                   owl_lexicon := Some lexicon;
                   version_fallback := false |}, st2)
        | (Err e, st2) => (Err e, st2)
        end
    | (Err e, st1) => (Err e, st1)
    end.
Proof.
  unfold version_found, resolve_version. destruct (nonempty version) as [v|];
    [|done].
  intros H.
  destruct (List.filter _ submissions) as [|sub rest] eqn:E.
  { apply filter_nil_existsb in E. congruence. }
  unfold bind.
  destruct (download_submission _ _ _ _ _ st) as [[[p r]|e] st1]; [|done].
  by destruct (OwlLexicon_init w p st1) as [[lx|e] st2].
Qed.

(** Resolution fetches the submission list once more exactly when the
    requested version is found, and annotates nothing. *)
Lemma resolve_version_events st r st' :
  resolve_version w t ontology version on_version_missing submissions st
  = (r, st') ->
  count_events is_list_submissions (trace st')
  = count_events is_list_submissions (trace st)
    + (if version_found version submissions then 1 else 0)
  /\ count_events is_annotate_text (trace st')
     = count_events is_annotate_text (trace st).
Proof.
  destruct (version_found version submissions) eqn:Hf.
  - rewrite (resolve_version_found _ Hf).
    destruct (download_submission _ _ _ _ _ st) as [[[p rv]|e] st1] eqn:Ed;
      apply download_submission_events in Ed as [Hl Ha].
    + destruct (OwlLexicon_init w p st1) as [[lx|e] st2] eqn:El;
        apply OwlLexicon_init_state in El as ->;
        intros [= <- <-]; lia.
    + intros [= <- <-]. lia.
  - unfold version_found in Hf. unfold resolve_version.
    destruct (nonempty version) as [v|].
    + apply filter_nil_existsb in Hf. rewrite Hf.
      destruct (String.eqb on_version_missing "latest");
        intros [= <- <-]; lia.
    + intros [= <- <-]. lia.
Qed.

(** A resolution that carries a lexicon comes from a found version and
    is no fallback. *)
Lemma resolve_version_lexicon st res st' :
  resolve_version w t ontology version on_version_missing submissions st
  = (Ok res, st') ->
  if version_found version submissions
  then version_fallback res = false /\ is_Some (owl_lexicon res)
       /\ is_Some (resolved_version res)
  else owl_lexicon res = None /\ resolved_version res = None
       /\ version_fallback res = otruthy version.
Proof.
  destruct (version_found version submissions) eqn:Hf.
  - rewrite (resolve_version_found _ Hf).
    destruct (download_submission _ _ _ _ _ st) as [[[p rv]|e] st1];
      [|done].
    destruct (OwlLexicon_init w p st1) as [[lx|e] st2]; [|done].
    intros [= <- <-]. simpl. eauto.
  - unfold version_found in Hf. unfold resolve_version.
    destruct (nonempty version) as [v|] eqn:Hv.
    + apply filter_nil_existsb in Hf. rewrite Hf.
      destruct (String.eqb on_version_missing "latest"); [|done].
      intros [= <- <-]. simpl. repeat split.
      unfold nonempty in Hv. destruct version as [s|]; [|done]. simpl.
      by destruct (truthy s).
    + intros [= <- <-]. simpl. repeat split.
      unfold nonempty in Hv. destruct version as [s|]; [|done]. simpl.
      by destruct (truthy s).
Qed.

End Resolution.

(** ** The whole call *)

Section Call.

Context (w : World) (t : OntologyTagger) (ontology : string)
        (terms : option (list (option string))) (file_path : option string)
        (version : option string) (on_version_missing : string).

(** The call on a non-empty normalized sequence, step by step. *)
Lemma annotate_terms_run st term rest :
  normalize_terms terms file_path st = (Ok (term :: rest), st) ->
  annotate_terms w t ontology terms file_path version on_version_missing st
  = let st1 := logged (ListSubmissions ontology) st in
    match remote_submissions w ontology with
    | Err e => (Err e, st1)
    | Ok submissions =>
        match resolve_version w t ontology version on_version_missing
                              submissions st1 with
        | (Err e, st2) => (Err e, st2)
        | (Ok res, st2) =>
            annotate_each w ontology version on_version_missing
                          (latest_version_of submissions) res
                          (term :: rest) [] st2
        end
    end.
Proof.
  intros Hn. unfold annotate_terms, bind at 1. rewrite Hn.
  unfold bind at 1. rewrite list_submissions_run. cbv zeta.
  destruct (remote_submissions w ontology) as [submissions|e]; [|done].
  unfold bind at 1.
  by destruct (resolve_version _ _ _ _ _ _ _) as [[res|e] st2].
Qed.

Lemma annotate_terms_empty st :
  normalize_terms terms file_path st = (Ok [], st) ->
  annotate_terms w t ontology terms file_path version on_version_missing st
  = (Ok [], st).
Proof. intros Hn. unfold annotate_terms, bind. by rewrite Hn. Qed.

End Call.

(** * The claims *)

(** ** C4: short identifiers *)

(** C4, as stated, fails: on an identifier with a "/" after its last
    "#", the rule of the claim gives the part after the "#", Foo/Bar,
    and the code gives the part after the "/", Bar. *)
Lemma short_id_rule_counterexample :
  extract_short_id "http://x/A#Foo/Bar" = "Bar"
  /\ spec_short_id "http://x/A#Foo/Bar" = "Foo/Bar"
  /\ extract_short_id "http://x/A#Foo/Bar"
     <> spec_short_id "http://x/A#Foo/Bar".
Proof. repeat split; [reflexivity..|discriminate]. Qed.

(** C4, amended: the short identifier is the part of the identifier
    after its last separator, "#" or "/" whichever comes later, and all
    of it when it holds neither. It is the part after the last "#" if
    there is one, else after the last "/", exactly when the identifier
    has no "#" or has no "/" after its last "#"; so it is on the two
    identifiers of the claim. *)
Theorem short_id_after_last_separator (uri : string) :
  (exists p,
     uri = p ++ extract_short_id uri
     /\ has_char "#" (extract_short_id uri) = false
     /\ has_char "/" (extract_short_id uri) = false
     /\ (p = "" \/ exists q, p = q ++ "#" \/ p = q ++ "/"))
  /\ (extract_short_id uri = spec_short_id uri
      <-> has_char "#" uri = false
          \/ has_char "/" (rsplit_last "#" uri) = false)
  /\ extract_short_id "http://x/A#Foo" = "Foo"
  /\ extract_short_id "http://x/A/Bar" = "Bar".
Proof.
  split; [apply extract_short_id_suffix|].
  split; [apply extract_short_id_agrees|].
  split; reflexivity.
Qed.

Lemma short_id_after_last_separator_witness :
  extract_short_id "http://x/A/B#Foo" = spec_short_id "http://x/A/B#Foo"
  /\ extract_short_id "http://x/A/B#Foo" = "Foo".
Proof.
  split; [|reflexivity].
  destruct (short_id_after_last_separator "http://x/A/B#Foo")
    as (_ & [_ Hagree] & _).
  apply Hagree. right. reflexivity.
Defined.

(** ** C1 and C10: one outcome per term, and the empty cases *)

(** C1: on an empty normalized sequence the call returns the empty
    sequence and leaves the state as it was, the log of remote
    operations included; whenever the call returns, it returns one
    outcome per normalized term, in the order of the terms; and it does
    return when the submission list is fetched, version resolution
    succeeds and the live service answers for every term. *)
Theorem annotate_terms_one_outcome_per_term
    (w : World) (t : OntologyTagger) (ontology : string)
    (terms : option (list (option string))) (file_path : option string)
    (version : option string) (on_version_missing : string)
    (st : State) (prepared : list string) :
  normalize_terms terms file_path st = (Ok prepared, st) ->
  (prepared = [] ->
   annotate_terms w t ontology terms file_path version on_version_missing st
   = (Ok [], st))
  /\ (forall outcomes st',
        annotate_terms w t ontology terms file_path version
                       on_version_missing st = (Ok outcomes, st') ->
        map input_text outcomes = prepared
        /\ length outcomes = length prepared)
  /\ (forall submissions res st2,
        remote_submissions w ontology = Ok submissions ->
        resolve_version w t ontology version on_version_missing submissions
                        (logged (ListSubmissions ontology) st)
        = (Ok res, st2) ->
        Forall (answered w ontology) prepared ->
        exists outcomes st',
          annotate_terms w t ontology terms file_path version
                         on_version_missing st = (Ok outcomes, st')).
Proof.
  intros Hn. split; [|split].
  - intros ->. by apply annotate_terms_empty.
  - intros outcomes st' H.
    assert (Hm : map input_text outcomes = prepared).
    { destruct prepared as [|term rest].
      - rewrite (annotate_terms_empty _ _ _ _ _ _ _ _ Hn) in H.
        by injection H as <- <-.
      - rewrite (annotate_terms_run _ _ _ _ _ _ _ _ _ _ Hn) in H.
        cbv zeta in H.
        destruct (remote_submissions w ontology) as [subs|e]; [|done].
        destruct (resolve_version _ _ _ _ _ _ _) as [[res|e] st2]; [|done].
        apply annotate_each_run in H as (_ & _ & _ & _ & news & -> & Hr).
        by apply outcomes_input_text in Hr. }
    split; [done|]. by rewrite <- Hm, length_map.
  - intros subs res st2 Hs Hr Hall. destruct prepared as [|term rest].
    + exists [], st. by apply annotate_terms_empty.
    + rewrite (annotate_terms_run _ _ _ _ _ _ _ _ _ _ Hn). cbv zeta.
      rewrite Hs, Hr. by apply annotate_each_total.
Qed.

Lemma annotate_terms_one_outcome_per_term_witness :
  exists outcomes st',
    annotate_terms Demo.world Demo.tagger "CL"
                   (Some [Some "cell"; None; Some "neuron"]) None None
                   "error" Demo.fresh = (Ok outcomes, st')
    /\ map input_text outcomes = ["cell"; "neuron"].
Proof.
  destruct (annotate_terms_one_outcome_per_term
              Demo.world Demo.tagger "CL"
              (Some [Some "cell"; None; Some "neuron"]) None None "error"
              Demo.fresh ["cell"; "neuron"] eq_refl)
    as (_ & Hshape & Hruns).
  destruct (Hruns Demo.releases
              {| resolved_version := None; owl_lexicon := None;
                 version_fallback := false |}
              (logged (ListSubmissions "CL") Demo.fresh)
              eq_refl eq_refl)
    as (outcomes & st' & Hrun).
  - repeat constructor; eexists; reflexivity.
  - exists outcomes, st'. split; [exact Hrun|].
    exact (proj1 (Hshape outcomes st' Hrun)).
Defined.

(** C10: with neither inline terms nor a file the call raises the
    [ValueError] of [normalize_terms] and leaves the state as it was,
    so no remote operation is performed; and a call returns the empty
    sequence only when an input is given and normalizes to no term. *)
Theorem annotate_terms_requires_an_input
    (w : World) (t : OntologyTagger) (ontology : string)
    (version : option string) (on_version_missing : string) (st : State) :
  annotate_terms w t ontology None None version on_version_missing st
  = (Err (ValueError "Provide either `terms` or `file_path`."), st)
  /\ forall terms file_path st',
       annotate_terms w t ontology terms file_path version
                      on_version_missing st = (Ok [], st') ->
       (terms <> None \/ file_path <> None)
       /\ normalize_terms terms file_path st = (Ok [], st)
       /\ st' = st.
Proof.
  split; [reflexivity|].
  intros terms file_path st' H.
  assert (Hsrc : terms <> None \/ file_path <> None).
  { destruct terms; [by left|]. destruct file_path; [by right|].
    discriminate. }
  split; [done|].
  destruct (normalize_terms terms file_path st) as [r st0] eqn:Hn.
  pose proof (normalize_terms_state _ _ _ _ _ Hn) as ->.
  destruct r as [[|term rest]|e].
  - rewrite (annotate_terms_empty _ _ _ _ _ _ _ _ Hn) in H.
    by injection H as <-.
  - exfalso.
    rewrite (annotate_terms_run _ _ _ _ _ _ _ _ _ _ Hn) in H.
    cbv zeta in H.
    destruct (remote_submissions w ontology) as [subs|e]; [|done].
    destruct (resolve_version _ _ _ _ _ _ _) as [[res|e] st2]; [|done].
    apply annotate_each_run in H as (_ & _ & _ & _ & news & Hnil & Hr).
    inversion Hr; subst. done.
  - unfold annotate_terms, bind in H. rewrite Hn in H. done.
Qed.

Lemma annotate_terms_requires_an_input_witness :
  Some [Some "  "] <> (None : option (list (option string)))
  /\ normalize_terms (Some [Some "  "]) None Demo.fresh
     = (Ok [], Demo.fresh).
Proof.
  destruct (annotate_terms_requires_an_input
              Demo.world Demo.tagger "CL" None "error" Demo.fresh)
    as [_ Honly].
  destruct (Honly (Some [Some "  "]) None Demo.fresh eq_refl)
    as (_ & Hnorm & _).
  split; [discriminate|exact Hnorm].
Defined.

(** ** C2 and C3: a requested version that is no submission's *)

(** C2, as stated, fails: a call whose inputs normalize to no term
    returns the empty sequence before the submissions are fetched, and
    so does not fail, though the requested version is no release and
    the policy is strict. *)
Lemma strict_missing_version_counterexample :
  remote_submissions Demo.world "CL" = Ok Demo.releases
  /\ version_found (Some "9999-99-99") Demo.releases = false
  /\ annotate_terms Demo.world Demo.tagger "CL" (Some [Some "  "]) None
                    (Some "9999-99-99") "error" Demo.fresh
     = (Ok [], Demo.fresh).
Proof. repeat split. Qed.

(** C2, amended: for every call whose normalized term sequence is not
    empty and whose submission list is fetched, with a requested
    version that is the version string of no submission, under the
    strict policy (any policy other than "latest"; "error" is the
    default), the call fails with [OntologyVersionNotFound] carrying the
    ontology, the requested version and the version string of every
    submission. It produces no outcome, and has performed one remote
    operation, the fetch of the submission list. *)
Theorem strict_missing_version_fails
    (w : World) (t : OntologyTagger) (ontology : string)
    (terms : option (list (option string))) (file_path : option string)
    (version : option string) (on_version_missing : string) (st : State)
    (term : string) (rest : list string)
    (submissions : list Submission) (v : string) :
  normalize_terms terms file_path st = (Ok (term :: rest), st) ->
  remote_submissions w ontology = Ok submissions ->
  nonempty version = Some v ->
  ~ In v (map version_str submissions) ->
  on_version_missing <> "latest" ->
  annotate_terms w t ontology terms file_path version on_version_missing st
  = (Err (OntologyVersionNotFound ontology v (map version_str submissions)),
     logged (ListSubmissions ontology) st).
Proof.
  intros Hn Hs Hv Hin Hp.
  rewrite (annotate_terms_run _ _ _ _ _ _ _ _ _ _ Hn). cbv zeta.
  by rewrite Hs, (resolve_version_strict _ _ _ _ _ _ v _ Hv Hin Hp).
Qed.

Lemma strict_missing_version_fails_witness :
  annotate_terms Demo.world Demo.tagger "CL" (Some [Some "cell"]) None
                 (Some "9999-99-99") "error" Demo.fresh
  = (Err (OntologyVersionNotFound "CL" "9999-99-99"
            ["2024-06-01"; "2023-01-01"]),
     logged (ListSubmissions "CL") Demo.fresh).
Proof.
  apply (strict_missing_version_fails
           Demo.world Demo.tagger "CL" (Some [Some "cell"]) None
           (Some "9999-99-99") "error" Demo.fresh "cell" []
           Demo.releases "9999-99-99"); try reflexivity.
  - simpl. intros [H|[H|[]]]; discriminate.
  - discriminate.
Defined.

Lemma evaluate_candidate_fallback version on_version_missing latest_version
    term top :
  otruthy version = true ->
  evaluate_candidate version on_version_missing latest_version
    {| resolved_version := None; owl_lexicon := None;
       version_fallback := true |} term top
  = {| input_text := term;
       standardized_term := prefLabel (class_details top);
       ontology_id := candidate_short_id (at_id (class_details top));
       ontology_version := Some latest_version;
       comment := "requested version missing; matched in latest" |}.
Proof. intros Hv. unfold evaluate_candidate. simpl. by rewrite Hv. Qed.

Lemma nonempty_truthy version v :
  nonempty version = Some v -> otruthy version = true /\ version = Some v.
Proof.
  unfold nonempty. destruct version as [s|]; [|done]. simpl.
  destruct (truthy s); [|done]. by intros [= ->].
Qed.

Lemma annotate_events_counts evs :
  Forall (fun e => is_annotate_text e = true) evs ->
  count_events is_list_submissions evs = 0
  /\ count_events is_download evs = 0.
Proof.
  intros H. split; apply count_events_none;
    (eapply Forall_impl; [exact H|]); by intros [].
Qed.

(** C3, as stated, fails: under the permissive policy with a requested
    version that is no release, a term for which the live service has
    no candidate gets the comment of an unmatched term. *)
Lemma permissive_missing_version_counterexample :
  version_found (Some "1999-01-01") Demo.releases = false
  /\ fst (annotate_terms Demo.world Demo.tagger "CL"
                         (Some [Some "cell"; Some "unicorn horn"]) None
                         (Some "1999-01-01") "latest" Demo.fresh)
     = Ok [ {| input_text := "cell";
               standardized_term := Some "cell";
               ontology_id := Some "CL_0000001";
               ontology_version := Some "2024-06-01";
               comment := "requested version missing; matched in latest" |};
            not_matched "unicorn horn" ]
  /\ comment (not_matched "unicorn horn")
     <> "requested version missing; matched in latest".
Proof.
  split; [reflexivity|]. split; [vm_compute; reflexivity|discriminate].
Qed.

(** C3, amended: under the permissive policy ("latest") with a requested
    version that is the version string of no submission, version
    resolution does not fail and builds no lexicon; when the live
    service answers for every term the call returns one outcome per
    term, having downloaded nothing and written no file; the outcome of
    a term with a live candidate carries the preferred label and short
    identifier of the candidate, the latest version, and the comment
    "requested version missing; matched in latest", and the outcome of
    a term without a candidate is the unmatched outcome, whose comment
    is "not matched at all". *)
Theorem permissive_missing_version_falls_back
    (w : World) (t : OntologyTagger) (ontology : string)
    (terms : option (list (option string))) (file_path : option string)
    (version : option string) (st : State) (prepared : list string)
    (submissions : list Submission) (v : string) :
  normalize_terms terms file_path st = (Ok prepared, st) ->
  remote_submissions w ontology = Ok submissions ->
  nonempty version = Some v ->
  ~ In v (map version_str submissions) ->
  Forall (answered w ontology) prepared ->
  (forall st1,
     resolve_version w t ontology version "latest" submissions st1
     = (Ok {| resolved_version := None; owl_lexicon := None;
              version_fallback := true |}, st1))
  /\ exists outcomes st',
       annotate_terms w t ontology terms file_path version "latest" st
       = (Ok outcomes, st')
       /\ files st' = files st
       /\ count_events is_download (trace st')
          = count_events is_download (trace st)
       /\ Forall2
            (fun term o =>
               match remote_annotator w term ontology with
               | Ok (top :: _) =>
                   o = {| input_text := term;
                          standardized_term := prefLabel (class_details top);
                          ontology_id :=
                            candidate_short_id (at_id (class_details top));
                          ontology_version :=
                            Some (latest_version_of submissions);
                          comment :=
                            "requested version missing; matched in latest" |}
               | _ => o = not_matched term
               end) prepared outcomes.
Proof.
  intros Hn Hs Hv Hin Hall.
  assert (Hres : forall st1,
     resolve_version w t ontology version "latest" submissions st1
     = (Ok {| resolved_version := None; owl_lexicon := None;
              version_fallback := true |}, st1)).
  { intros st1. by apply (resolve_version_fallback _ _ _ _ _ _ v). }
  split; [done|].
  destruct prepared as [|term rest].
  { exists [], st. rewrite (annotate_terms_empty _ _ _ _ _ _ _ _ Hn).
    repeat split. constructor. }
  rewrite (annotate_terms_run _ _ _ _ _ _ _ _ _ _ Hn). cbv zeta.
  rewrite Hs, Hres.
  destruct (annotate_each_total w ontology version "latest"
              (latest_version_of submissions)
              {| resolved_version := None; owl_lexicon := None;
                 version_fallback := true |}
              (term :: rest) [] (logged (ListSubmissions ontology) st) Hall)
    as (outcomes & st' & Hrun).
  exists outcomes, st'. split; [done|].
  apply annotate_each_run in Hrun
    as (Hf & _ & _ & (evs & Ht & Hev) & news & -> & Hr).
  apply annotate_events_counts in Hev as [_ Hd].
  split; [done|]. split.
  { rewrite Ht, count_events_app, Hd. simpl.
    rewrite count_events_app. unfold count_events at 2. simpl. lia. }
  simpl. eapply Forall2_impl; [exact Hr|].
  intros term' o Ho. unfold outcome_of in Ho.
  destruct (remote_annotator w term' ontology) as [[|top tl]|e];
    [done| |done].
  rewrite Ho. apply evaluate_candidate_fallback.
  by apply nonempty_truthy in Hv as [Hv _].
Qed.

Lemma permissive_missing_version_falls_back_witness :
  exists outcomes st',
    annotate_terms Demo.world Demo.tagger "CL"
                   (Some [Some "cell"; Some "unicorn horn"]) None
                   (Some "1999-01-01") "latest" Demo.fresh
    = (Ok outcomes, st')
    /\ files st' = files Demo.fresh.
Proof.
  destruct (permissive_missing_version_falls_back
              Demo.world Demo.tagger "CL"
              (Some [Some "cell"; Some "unicorn horn"]) None
              (Some "1999-01-01") Demo.fresh ["cell"; "unicorn horn"]
              Demo.releases "1999-01-01" eq_refl eq_refl eq_refl)
    as (_ & outcomes & st' & Hrun & Hfiles & _).
  - simpl. intros [H|[H|[]]]; discriminate.
  - repeat constructor; eexists; reflexivity.
  - exists outcomes, st'. split; [exact Hrun|exact Hfiles].
Defined.

(** ** C9: fetches of the submission list *)

(** C9, as stated, fails: when the requested version is a release, the
    call fetches the submission list itself and [download_submission]
    fetches it again, so one call performs the operation twice. *)
Lemma submissions_fetched_once_counterexample :
  version_found (Some "2023-01-01") Demo.releases = true
  /\ trace (snd (annotate_terms Demo.world Demo.tagger "CL"
                                (Some [Some "cell"]) None
                                (Some "2023-01-01") "error" Demo.fresh))
     = [ ListSubmissions "CL"; ListSubmissions "CL";
         Download ("https://data.bioontology.org/ontologies/CL/"
                   ++ "submissions/7/download?apikey=key");
         AnnotateText "cell" "CL" ]
  /\ count_events is_list_submissions
       (trace (snd (annotate_terms Demo.world Demo.tagger "CL"
                                   (Some [Some "cell"]) None
                                   (Some "2023-01-01") "error" Demo.fresh)))
     = 2.
Proof. repeat split; vm_compute; reflexivity. Qed.

(** C9, amended: a call on a non-empty normalized sequence fetches the
    submission list once when no version is requested, when the
    requested version is no submission's, or when the fetch fails; it
    fetches it twice when the requested version is found, the second
    time inside [download_submission]; the number of terms plays no
    part. Every term is evaluated with the latest version computed from
    the first fetch: the version of the first submission when that is a
    non-empty string, the literal "latest" when it is not or when the
    list is empty. *)
Theorem submissions_fetch_count
    (w : World) (t : OntologyTagger) (ontology : string)
    (terms : option (list (option string))) (file_path : option string)
    (requested : option string) (on_version_missing : string)
    (st : State)
    (term : string) (rest : list string)
    (r : Result (list AnnotationOutcome)) (st' : State) :
  normalize_terms terms file_path st = (Ok (term :: rest), st) ->
  annotate_terms w t ontology terms file_path requested on_version_missing
                 st
  = (r, st') ->
  count_events is_list_submissions (trace st')
  = count_events is_list_submissions (trace st)
    + match remote_submissions w ontology with
      | Ok submissions => if version_found requested submissions then 2 else 1
      | Err _ => 1
      end
  /\ (forall submissions outcomes,
        remote_submissions w ontology = Ok submissions ->
        r = Ok outcomes ->
        exists res,
          Forall2 (outcome_of w ontology requested on_version_missing
                              (latest_version_of submissions) res)
                  (term :: rest) outcomes)
  /\ latest_version_of [] = "latest"
  /\ (forall first others,
        latest_version_of (first :: others)
        = match version first with
          | Some s => if truthy s then s else "latest"
          | None => "latest"
          end).
Proof.
  intros Hn H.
  rewrite (annotate_terms_run _ _ _ _ _ _ _ _ _ _ Hn) in H. cbv zeta in H.
  pose proof (count_events_logged is_list_submissions
                (ListSubmissions ontology) st) as Hl.
  change (if is_list_submissions (ListSubmissions ontology) then 1 else 0)
    with 1 in Hl.
  split; [|split; [|split; [reflexivity|by intros first others]]].
  - destruct (remote_submissions w ontology) as [subs|e].
    2: { injection H as <- <-. lia. }
    destruct (resolve_version _ _ _ _ _ _ _) as [[res|e] st2] eqn:Hr;
      apply resolve_version_events in Hr as [Hr _].
    + apply annotate_each_run in H as (_ & _ & _ & (evs & Ht & Hev) & _).
      apply annotate_events_counts in Hev as [Hev _].
      rewrite Ht, count_events_app, Hev, Hr, Hl.
      destruct (version_found requested subs); lia.
    + injection H as <- <-. rewrite Hr, Hl.
      destruct (version_found requested subs); lia.
  - intros subs outcomes Hs ->. rewrite Hs in H.
    destruct (resolve_version _ _ _ _ _ _ _) as [[res|e] st2]; [|done].
    apply annotate_each_run in H as (_ & _ & _ & _ & news & -> & Hr).
    by exists res.
Qed.

Lemma submissions_fetch_count_witness :
  count_events is_list_submissions
    (trace (snd (annotate_terms Demo.world Demo.tagger "CL"
                                (Some [Some "cell"; Some "neuron"]) None
                                None "error" Demo.fresh)))
  = 1.
Proof.
  exact (proj1 (submissions_fetch_count
                  Demo.world Demo.tagger "CL"
                  (Some [Some "cell"; Some "neuron"]) None None "error"
                  Demo.fresh "cell" ["neuron"] _ _ eq_refl
                  (surjective_pairing _))).
Defined.

(** ** C8: an ontology without submissions *)

(** C8, as stated, fails: on an empty submission list the code raises
    [OntologyVersionNotFound], the error it also raises for a requested
    version that is missing from a non-empty list; there is no error of
    its own for the case. *)
Lemma no_submissions_error_counterexample :
  remote_submissions Demo.world "XX" = Ok []
  /\ download_submission Demo.world (client Demo.tagger) "XX" None
                         "downloads" Demo.fresh
     = (Err (OntologyVersionNotFound "XX" "latest" []),
        logged (ListSubmissions "XX") Demo.fresh)
  /\ is_version_not_found (OntologyVersionNotFound "XX" "latest" []) = true.
Proof. repeat split. Qed.

(** C8, amended: when the submission list of the ontology is empty,
    [download_submission] fails with [OntologyVersionNotFound] carrying
    the ontology, the requested version (the literal "latest" when none
    is requested) and an empty list of available versions. A requested
    version missing from a non-empty list raises the same error, with
    the version strings of the list: the two cases differ by the list
    the error carries, not by the kind of error. *)
Theorem empty_submissions_version_not_found
    (w : World) (c : BioPortalClient) (ontology : string)
    (requested : option string) (dest_dir : string) (st : State) :
  (remote_submissions w ontology = Ok [] ->
   download_submission w c ontology requested dest_dir st
   = (Err (OntologyVersionNotFound ontology
             (match requested with
              | Some v => if truthy v then v else "latest"
              | None => "latest"
              end) []),
      logged (ListSubmissions ontology) st))
  /\ (forall first others v,
        remote_submissions w ontology = Ok (first :: others) ->
        nonempty requested = Some v ->
        ~ In v (map version_str (first :: others)) ->
        download_submission w c ontology requested dest_dir st
        = (Err (OntologyVersionNotFound ontology v
                  (map version_str (first :: others))),
           logged (ListSubmissions ontology) st)).
Proof.
  split.
  - intros Hs. rewrite download_submission_run, Hs. reflexivity.
  - intros first others v Hs Hv Hin.
    rewrite download_submission_run, Hs. cbv zeta.
    unfold select_submission. rewrite Hv.
    apply existsb_version, filter_nil_existsb in Hin. by rewrite Hin.
Qed.

Lemma empty_submissions_version_not_found_witness :
  download_submission Demo.world (client Demo.tagger) "XX"
                      (Some "2023-01-01") "downloads" Demo.fresh
  = (Err (OntologyVersionNotFound "XX" "2023-01-01" []),
     logged (ListSubmissions "XX") Demo.fresh).
Proof.
  exact (proj1 (empty_submissions_version_not_found
                  Demo.world (client Demo.tagger) "XX" (Some "2023-01-01")
                  "downloads" Demo.fresh) eq_refl).
Defined.

(** ** C7: the cache of downloads *)

(** C7: when a call of [download_submission] returns a path and a
    version, the path is the cache path computed from the ontology and
    the resolved version, the file is on disk, and the call has
    downloaded once if the file was not on disk before and not at all
    if it was; a second call with the same arguments then returns the
    same path and version, downloads nothing and leaves the files as
    they are. Two calls starting without the file perform one
    download. *)
Theorem download_submission_twice
    (w : World) (c : BioPortalClient) (ontology : string)
    (requested : option string) (dest_dir : string)
    (st st1 : State) (p v : string) :
  download_submission w c ontology requested dest_dir st
  = (Ok (p, v), st1) ->
  p = path_join dest_dir (ontology ++ "_" ++ v ++ ".owl")
  /\ on_disk p st1 = true
  /\ count_events is_download (trace st1)
     = count_events is_download (trace st)
       + (if on_disk p st then 0 else 1)
  /\ exists st2,
       download_submission w c ontology requested dest_dir st1
       = (Ok (p, v), st2)
       /\ files st2 = files st1
       /\ last_download_url st2 = Some ("(cached) " ++ p)
       /\ count_events is_download (trace st2)
          = count_events is_download (trace st1)
       /\ count_events is_download (trace st2)
          = count_events is_download (trace st)
            + (if on_disk p st then 0 else 1).
Proof.
  intros H. rewrite download_submission_run in H. cbv zeta in H.
  pose proof (download_submission_run w c ontology requested dest_dir st1)
    as Hagain. cbv zeta in Hagain.
  destruct (remote_submissions w ontology) as [subs|e]; [|done].
  destruct (select_submission ontology requested subs) as [sub|e]; [|done].
  destruct (submission_id_of sub) as [id|e]; [|done].
  set (e1 := ListSubmissions ontology) in *.
  pose proof (fetch_artifact_run _ _ _ _ _ _ _ _ _ H)
    as (_ & _ & Hhit & Hmiss & Hok).
  cbv zeta in Hhit, Hmiss, Hok.
  destruct (Hok p v eq_refl) as (-> & -> & Hdir & Hdisk).
  set (p := path_join dest_dir
              (ontology ++ "_" ++ version_or_latest sub ++ ".owl")) in *.
  assert (Hcount : count_events is_download (trace st1)
                   = count_events is_download (trace st)
                     + (if on_disk p st then 0 else 1)).
  { change (on_disk p st) with (on_disk p (logged e1 st)).
    pose proof (count_events_logged is_download e1 st) as Hl.
    change (if is_download e1 then 1 else 0) with 0 in Hl.
    destruct (on_disk p (logged e1 st)) eqn:Hd.
    - destruct (Hhit eq_refl) as [->|(e & He & _)]; [|done].
      exact Hl.
    - rewrite (Hmiss eq_refl p _ eq_refl). lia. }
  split; [done|]. split; [done|]. split; [done|].
  rewrite (fetch_artifact_cached w c ontology id (version_or_latest sub)
             dest_dir (logged e1 st1) Hdir Hdisk) in Hagain.
  eexists. split; [exact Hagain|]. cbn [files last_download_url trace].
  split; [done|]. split; [done|].
  pose proof (count_events_logged is_download e1 st1) as Hl.
  change (if is_download e1 then 1 else 0) with 0 in Hl.
  split; lia.
Qed.

Lemma download_submission_twice_witness :
  exists st2,
    download_submission Demo.world (client Demo.tagger) "CL" None
      "downloads"
      (snd (download_submission Demo.world (client Demo.tagger) "CL" None
                                "downloads" Demo.fresh))
    = (Ok ("downloads/CL_2024-06-01.owl", "2024-06-01"), st2)
    /\ count_events is_download (trace st2) = 1.
Proof.
  destruct (download_submission_twice
              Demo.world (client Demo.tagger) "CL" None "downloads"
              Demo.fresh
              (snd (download_submission Demo.world (client Demo.tagger)
                                        "CL" None "downloads" Demo.fresh))
              "downloads/CL_2024-06-01.owl" "2024-06-01")
    as (_ & _ & _ & st2 & Hrun & _ & _ & _ & Hcount).
  - vm_compute. reflexivity.
  - exists st2. split; [exact Hrun|exact Hcount].
Defined.

(** ** C5 and C6: the candidate against the lexicon *)

Lemma index_label_nonempty lx t :
  labels_nonempty lx -> labels_nonempty (index_label lx t).
Proof.
  intros Hlx. destruct t as [[subj pred] obj]. unfold index_label.
  destruct (truthy (strip (node_str obj))) eqn:Ht; [|done].
  destruct subj as [ident| |]; try done.
  intros k l. simpl. rewrite lookup_insert.
  case_decide; [by intros [= <-]|apply Hlx].
Qed.

Lemma index_subject_nonempty lx t :
  labels_nonempty lx -> labels_nonempty (index_subject lx t).
Proof.
  intros Hlx. destruct t as [[subj pred] obj]. unfold index_subject.
  by destruct subj.
Qed.

Lemma fold_left_nonempty (f : OwlLexicon -> Triple -> OwlLexicon)
    (graph : list Triple) : forall lx,
  (forall lx t, labels_nonempty lx -> labels_nonempty (f lx t)) ->
  labels_nonempty lx -> labels_nonempty (fold_left f graph lx).
Proof.
  induction graph as [|t graph IH]; intros lx Hf Hlx; [done|].
  simpl. apply IH; [done|]. by apply Hf.
Qed.

Lemma build_lexicon_nonempty graph : labels_nonempty (build_lexicon graph).
Proof.
  unfold build_lexicon.
  apply fold_left_nonempty; [apply index_subject_nonempty|].
  apply fold_left_nonempty; [apply index_label_nonempty|].
  intros k l. simpl. by rewrite lookup_empty.
Qed.

(** C5: with a lexicon, the identifier is tested first. When the short
    identifier of the candidate is in the lexicon, the term is in the
    specified version, the label of the identifier is looked up, and
    the label found is the standardized term, the live preferred label
    standing in when the release has no label for the identifier. When
    the candidate has no short identifier or the lexicon does not hold
    it, the term is in the specified version exactly when the live
    preferred label is a label of the lexicon (an absent or empty label
    is none), and no label is taken from the lexicon. *)
Theorem lexicon_identifier_then_label
    (graph : list Triple) (requested resolved : option string)
    (on_version_missing latest_version term : string) (top : Annotation) :
  let lx := build_lexicon graph in
  let res := {| resolved_version := resolved; owl_lexicon := Some lx;
                version_fallback := false |} in
  let short_id := candidate_short_id (at_id (class_details top)) in
  let pref_label := prefLabel (class_details top) in
  let o := evaluate_candidate requested on_version_missing latest_version
                              res term top in
  otruthy requested = true ->
  (forall sid,
     nonempty short_id = Some sid -> has_id lx sid = true ->
     verify_candidate (Some lx) short_id pref_label
     = (true, get_label_by_id lx sid)
     /\ comment o = "matched in user specified version"
     /\ standardized_term o
        = match get_label_by_id lx sid with
          | Some l => Some l
          | None => pref_label
          end)
  /\ (nonempty short_id = None
      \/ (exists sid, nonempty short_id = Some sid /\ has_id lx sid = false) ->
      let by_label :=
        match nonempty pref_label with
        | Some l => has_label lx l
        | None => false
        end in
      verify_candidate (Some lx) short_id pref_label = (by_label, None)
      /\ (by_label = true ->
          comment o = "matched in user specified version"
          /\ standardized_term o = pref_label)
      /\ (by_label = false ->
          comment o <> "matched in user specified version")).
Proof.
  intros lx res short_id pref_label o Hreq. split.
  - intros sid Hsid Hid.
    assert (Hv : verify_candidate (Some lx) short_id pref_label
                 = (true, get_label_by_id lx sid)).
    { unfold verify_candidate. rewrite Hsid, Hid. simpl.
      by destruct (nonempty pref_label). }
    split; [done|].
    unfold o, evaluate_candidate. fold short_id pref_label.
    cbn [owl_lexicon res version_fallback]. rewrite Hv, Hreq. simpl.
    split; [done|].
    destruct (get_label_by_id lx sid) as [l|] eqn:Hl; [|done].
    simpl. by rewrite (build_lexicon_nonempty graph _ _ Hl).
  - intros Hid by_label.
    assert (Hv : verify_candidate (Some lx) short_id pref_label
                 = (by_label, None)).
    { unfold verify_candidate, by_label.
      destruct Hid as [->|(sid & -> & ->)]; simpl;
        by destruct (nonempty pref_label). }
    split; [done|].
    unfold o, evaluate_candidate. fold short_id pref_label.
    cbn [owl_lexicon res version_fallback]. rewrite Hv, Hreq. simpl.
    split; intros ->; simpl; [done|].
    by destruct (String.eqb on_version_missing "latest").
Qed.

Lemma lexicon_identifier_then_label_witness :
  standardized_term
    (evaluate_candidate (Some "2023-01-01") "error" "2024-06-01"
       {| resolved_version := Some "2023-01-01";
          owl_lexicon := Some Demo.lexicon;
          version_fallback := false |}
       "cell" (Demo.candidate "cell" Demo.cell_uri))
  = Some "Cell".
Proof.
  destruct (lexicon_identifier_then_label
              [(URIRef Demo.cell_uri, URIRef RDFS_label, Literal " Cell ")]
              (Some "2023-01-01") (Some "2023-01-01") "error" "2024-06-01"
              "cell" (Demo.candidate "cell" Demo.cell_uri) eq_refl)
    as [Hid _].
  destruct (Hid "CL_0000001" eq_refl) as (_ & _ & Hterm).
  - vm_compute. reflexivity.
  - exact Hterm.
Defined.

(** C6: under the strict policy, with a requested version that was
    found (so no fallback), a term whose top candidate is not in the
    lexicon of that version gets exactly the outcome without a
    standardized term that carries the short identifier of the
    candidate, the resolved version if there is one and the requested
    version otherwise, and the comment of the strict mode; the term has
    taken one remote operation, its live query, and the latest version
    plays no part. *)
Theorem strict_unmatched_outcome
    (w : World) (ontology : string) (requested : option string)
    (on_version_missing latest_version : string) (res : Resolution)
    (term : string) (top : Annotation) (others : list Annotation)
    (st : State) :
  otruthy requested = true ->
  version_fallback res = false ->
  on_version_missing <> "latest" ->
  remote_annotator w term ontology = Ok (top :: others) ->
  fst (verify_candidate (owl_lexicon res)
         (candidate_short_id (at_id (class_details top)))
         (prefLabel (class_details top))) = false ->
  annotate_term w ontology requested on_version_missing latest_version res
                term st
  = (Ok {| input_text := term;
           standardized_term := None;
           ontology_id := candidate_short_id (at_id (class_details top));
           ontology_version :=
             if otruthy (resolved_version res) then resolved_version res
             else requested;
           comment := "strict mode: not matched in specified version" |},
     logged (AnnotateText term ontology) st).
Proof.
  intros Hreq Hfb Hp Ha Hv. rewrite annotate_term_run, Ha. f_equal. f_equal.
  unfold evaluate_candidate.
  destruct (verify_candidate _ _ _) as [in_spec owl_label].
  simpl in Hv. subst in_spec. rewrite Hreq, Hfb. simpl.
  by apply String.eqb_neq in Hp as ->.
Qed.

Lemma strict_unmatched_outcome_witness :
  annotate_term Demo.world "CL" (Some "2023-01-01") "error" "2024-06-01"
    {| resolved_version := Some "2023-01-01";
       owl_lexicon := Some Demo.lexicon;
       version_fallback := false |}
    "neuron" Demo.fresh
  = (Ok {| input_text := "neuron";
           standardized_term := None;
           ontology_id := Some "CL_0000540";
           ontology_version := Some "2023-01-01";
           comment := "strict mode: not matched in specified version" |},
     logged (AnnotateText "neuron" "CL") Demo.fresh).
Proof.
  apply (strict_unmatched_outcome
           Demo.world "CL" (Some "2023-01-01") "error" "2024-06-01"
           {| resolved_version := Some "2023-01-01";
              owl_lexicon := Some Demo.lexicon;
              version_fallback := false |}
           "neuron" (Demo.candidate "neuron" Demo.neuron_uri) []
           Demo.fresh); reflexivity || discriminate.
Defined.

(** * Further properties of the code *)

(** ** normalize_terms *)

Lemma rstrip_idempotent s : rstrip (rstrip s) = rstrip s.
Proof.
  induction s as [|c r IH]; [done|]. simpl.
  destruct (is_space c && String.eqb (rstrip r) "") eqn:E; [done|].
  simpl. by rewrite IH, E.
Qed.

Lemma lstrip_head s :
  lstrip s = "" \/ exists c r, lstrip s = String c r /\ is_space c = false.
Proof.
  induction s as [|c r IH]; [by left|]. simpl.
  destruct (is_space c) eqn:E; [done|]. right. by exists c, r.
Qed.

Lemma lstrip_rstrip_lstrip s : lstrip (rstrip (lstrip s)) = rstrip (lstrip s).
Proof.
  destruct (lstrip_head s) as [->|(c & r & -> & Hc)]; [done|].
  simpl. rewrite Hc. simpl. by rewrite Hc.
Qed.

Lemma strip_idempotent s : strip (strip s) = strip s.
Proof.
  unfold strip. by rewrite lstrip_rstrip_lstrip, rstrip_idempotent.
Qed.

Lemma all_chars_lstrip p s : all_chars p s = true -> all_chars p (lstrip s) = true.
Proof.
  induction s as [|c r IH]; [done|]. simpl. intros H.
  apply andb_prop in H as [Hc Hr]. destruct (is_space c); [by apply IH|].
  simpl. by rewrite Hc, Hr.
Qed.

Lemma all_chars_rstrip p s : all_chars p s = true -> all_chars p (rstrip s) = true.
Proof.
  induction s as [|c r IH]; [done|]. simpl. intros H.
  apply andb_prop in H as [Hc Hr].
  destruct (is_space c && String.eqb (rstrip r) ""); [done|].
  simpl. by rewrite Hc, IH.
Qed.

Lemma all_chars_app p s t :
  all_chars p (s ++ t) = all_chars p s && all_chars p t.
Proof.
  induction s as [|c r IH]; [done|]. rewrite append_cons. simpl.
  by rewrite IH, andb_assoc.
Qed.

Lemma splitlines_from_lines n : forall s cur,
  String.length s <= n ->
  all_chars (fun c => negb (is_linebreak c)) cur = true ->
  Forall (fun l => all_chars (fun c => negb (is_linebreak c)) l = true)
         (splitlines_from cur s).
Proof.
  induction n as [|n IH]; intros s cur Hlen Hcur.
  - destruct s; [|simpl in Hlen; lia]. simpl.
    destruct (truthy cur); by repeat constructor.
  - destruct s as [|c r].
    { simpl. destruct (truthy cur); by repeat constructor. }
    simpl in Hlen. simpl. destruct (is_linebreak c) eqn:Hc.
    + destruct r as [|c' r'].
      * by repeat constructor.
      * simpl in Hlen.
        destruct ((code c =? 13)%N && (code c' =? 10)%N);
          (constructor; [done|]); apply IH; simpl; try done; lia.
    + apply IH; [lia|]. rewrite all_chars_app, Hcur. simpl. by rewrite Hc.
Qed.

Lemma splitlines_from_whole s : forall cur,
  all_chars (fun c => negb (is_linebreak c)) s = true ->
  splitlines_from cur s = if truthy (cur ++ s) then [cur ++ s] else [].
Proof.
  induction s as [|c r IH]; intros cur H.
  - simpl. assert (cur ++ "" = cur) as ->; [|done].
    clear. induction cur as [|a cur IH]; [done|].
    by rewrite append_cons, IH.
  - simpl in H. apply andb_prop in H as [Hc Hr]. simpl.
    apply negb_true_iff in Hc. rewrite Hc, (IH _ Hr).
    by rewrite append_assoc.
Qed.

Lemma clean_lines_clean text : Forall clean_term (clean_lines text).
Proof.
  unfold clean_lines. apply Forall_forall. intros t Ht.
  apply list_elem_of_In, filter_In in Ht as [Ht Htr].
  apply in_map_iff in Ht as (l & <- & Hl).
  pose proof (splitlines_from_lines _ text "" (le_n _) eq_refl) as Hall.
  rewrite Forall_forall in Hall. specialize (Hall l).
  split; [|split].
  - intros E. rewrite E in Htr. done.
  - apply strip_idempotent.
  - apply all_chars_rstrip, all_chars_lstrip, Hall. by apply list_elem_of_In.
Qed.

Lemma clean_lines_of_clean t : clean_term t -> clean_lines t = [t].
Proof.
  intros (Hne & Hs & Hl). unfold clean_lines, splitlines.
  rewrite (splitlines_from_whole t "" Hl).
  change ("" ++ t) with t.
  assert (Ht : truthy t = true).
  { unfold truthy. by destruct (String.eqb_spec t ""). }
  rewrite Ht. simpl. by rewrite Hs, Ht.
Qed.

Lemma inline_terms_clean terms : Forall clean_term (inline_terms terms).
Proof.
  unfold inline_terms. induction terms as [|[s|] terms IH]; simpl; [done| |done].
  apply Forall_app. split; [apply clean_lines_clean|done].
Qed.

Lemma inline_terms_of_clean out :
  Forall clean_term out -> inline_terms (map Some out) = out.
Proof.
  unfold inline_terms. induction 1 as [|t out Ht _ IH]; simpl; [done|].
  by rewrite (clean_lines_of_clean t Ht), IH.
Qed.

Lemma normalize_terms_result terms file_path st out st' :
  normalize_terms terms file_path st = (Ok out, st') ->
  st' = st
  /\ out = (default [] (inline_terms <$> terms)
            ++ match file_path with
               | Some p => default [] (clean_lines <$> files st !! p)
               | None => []
               end)%list.
Proof.
  unfold normalize_terms, bind, read_text, ret, raise.
  destruct terms as [ts|], file_path as [p|]; simpl; try done;
    try destruct (files st !! p) as [data|]; simpl; try done;
    intros [= <- <-]; by rewrite ?app_nil_r.
Qed.

(** X1: every term that [normalize_terms] returns is clean: it is not
    empty, stripping it changes nothing, and it holds no line break. *)
Theorem normalize_terms_clean
    (terms : option (list (option string))) (file_path : option string)
    (st st' : State) (out : list string) :
  normalize_terms terms file_path st = (Ok out, st') ->
  Forall clean_term out.
Proof.
  intros H. apply normalize_terms_result in H as [_ ->].
  apply Forall_app. split.
  - destruct terms as [ts|]; simpl; [apply inline_terms_clean|done].
  - destruct file_path as [p|]; [|done].
    destruct (files st !! p); simpl; [apply clean_lines_clean|done].
Qed.

Lemma normalize_terms_clean_witness :
  Forall clean_term ["cell"; "T cell"].
Proof.
  apply (normalize_terms_clean
           (Some [Some ("  cell " ++ nl ++ nl ++ " T cell"); None]) None
           Demo.fresh Demo.fresh ["cell"; "T cell"]).
  reflexivity.
Defined.

(** X2: normalization is idempotent: the terms it returns, given back
    as inline terms, are returned as they are. *)
Theorem normalize_terms_idempotent
    (terms : option (list (option string))) (file_path : option string)
    (st st' : State) (out : list string) :
  normalize_terms terms file_path st = (Ok out, st') ->
  normalize_terms (Some (map Some out)) None st = (Ok out, st).
Proof.
  intros H. apply normalize_terms_clean in H.
  unfold normalize_terms, ret. simpl. by rewrite inline_terms_of_clean.
Qed.

Lemma normalize_terms_idempotent_witness :
  normalize_terms (Some (map Some ["cell"; "T cell"])) None Demo.fresh
  = (Ok ["cell"; "T cell"], Demo.fresh).
Proof.
  apply (normalize_terms_idempotent
           (Some [Some ("  cell " ++ nl ++ nl ++ " T cell"); None]) None
           Demo.fresh Demo.fresh ["cell"; "T cell"]).
  reflexivity.
Defined.



(** ** OwlLexicon *)

Lemma is_space_lower c : is_space (lower_char c) = is_space c.
Proof. destruct c as [[] [] [] [] [] [] [] []]; reflexivity. Qed.

Lemma lower_empty s : String.eqb (lower s) "" = String.eqb s "".
Proof. by destruct s. Qed.

Lemma lstrip_lower s : lstrip (lower s) = lower (lstrip s).
Proof.
  induction s as [|c r IH]; [done|]. simpl. rewrite is_space_lower.
  by destruct (is_space c).
Qed.

Lemma rstrip_lower s : rstrip (lower s) = lower (rstrip s).
Proof.
  induction s as [|c r IH]; [done|]. simpl.
  rewrite is_space_lower, IH, lower_empty.
  by destruct (is_space c && String.eqb (rstrip r) "").
Qed.

Lemma strip_lower s : strip (lower s) = lower (strip s).
Proof. unfold strip. by rewrite lstrip_lower, rstrip_lower. Qed.

(** The second pass adds the short identifier of every named subject
    and touches nothing else. *)
Lemma index_subject_fold graph : forall lx,
  _labels (fold_left index_subject graph lx) = _labels lx
  /\ _id_to_label (fold_left index_subject graph lx) = _id_to_label lx
  /\ forall x,
       x ∈ _ids (fold_left index_subject graph lx)
       <-> x ∈ _ids lx
           \/ exists ident p o,
                In (URIRef ident, p, o) graph
                /\ lower (extract_short_id ident) = x.
Proof.
  induction graph as [|[[subj p] o] graph IH]; intros lx.
  - simpl. repeat split; [by left|]. intros [H|(?&?&?&[]&_)]. done.
  - cbn [fold_left].
    destruct (IH (index_subject lx (subj, p, o))) as (Hl & Hm & Hi).
    rewrite Hl, Hm. split; [by destruct subj|]. split; [by destruct subj|].
    intros x. rewrite Hi. destruct subj as [ident| |]; simpl.
    + rewrite elem_of_union, elem_of_singleton. split.
      * intros [[->|H]|(i & p' & o' & Hin & <-)]; eauto 10.
      * intros [H|(i & p' & o' & [[= -> -> ->]|Hin] & <-)]; eauto 10.
    + split; [intros [H|(i & p' & o' & Hin & <-)]; eauto 10|].
      intros [H|(i & p' & o' & [[=]|Hin] & <-)]; eauto 10.
    + split; [intros [H|(i & p' & o' & Hin & <-)]; eauto 10|].
      intros [H|(i & p' & o' & [[=]|Hin] & <-)]; eauto 10.
Qed.

Lemma index_label_step lx s p o :
  _ids (index_label lx (s, p, o)) = _ids lx
  /\ forall x,
       x ∈ _labels (index_label lx (s, p, o))
       <-> x ∈ _labels lx
           \/ truthy (strip (node_str o)) = true
              /\ lower (strip (node_str o)) = x.
Proof.
  unfold index_label. destruct (truthy (strip (node_str o))) eqn:Ht.
  - split; [done|]. intros x. simpl.
    rewrite elem_of_union, elem_of_singleton.
    split; [intros [->|H]; [by right|by left]|].
    intros [H|[_ <-]]; [by right|by left].
  - split; [done|]. intros x. split; [by left|].
    intros [H|[Hc _]]; [done|congruence].
Qed.

(** The first pass adds the lowered label of every statement with a
    non-empty label and leaves the identifiers alone. *)
Lemma index_label_fold labelled : forall lx,
  _ids (fold_left index_label labelled lx) = _ids lx
  /\ forall x,
       x ∈ _labels (fold_left index_label labelled lx)
       <-> x ∈ _labels lx
           \/ exists s p o,
                In (s, p, o) labelled
                /\ truthy (strip (node_str o)) = true
                /\ lower (strip (node_str o)) = x.
Proof.
  induction labelled as [|[[subj p] o] labelled IH]; intros lx.
  - simpl. split; [done|]. intros x. split; [by left|].
    intros [H|(?&?&?&[]&_)]. done.
  - cbn [fold_left].
    destruct (IH (index_label lx (subj, p, o))) as (Hi & Hl).
    destruct (index_label_step lx subj p o) as (Hi1 & Hl1).
    rewrite Hi, Hi1. split; [done|]. intros x. rewrite Hl, Hl1. split.
    + intros [[H|[Ht <-]]|(s' & p' & o' & Hin & Ht' & <-)].
      * by left.
      * right. exists subj, p, o. repeat split; try done. by left.
      * right. exists s', p', o'. repeat split; try done. by right.
    + intros [H|(s' & p' & o' & [[= -> -> ->]|Hin] & Ht' & <-)].
      * by left; left.
      * by left; right.
      * right. by exists s', p', o'.
Qed.

(** Where the labels of the reverse map come from. *)
Lemma index_label_fold_lookup labelled : forall lx k v,
  _id_to_label (fold_left index_label labelled lx) !! k = Some v ->
  _id_to_label lx !! k = Some v
  \/ exists ident p o,
       In (URIRef ident, p, o) labelled
       /\ truthy (strip (node_str o)) = true
       /\ v = strip (node_str o)
       /\ k = lower (extract_short_id ident).
Proof.
  induction labelled as [|[[subj p] o] labelled IH]; intros lx k v H.
  - by left.
  - cbn [fold_left] in H.
    apply IH in H as [H|(i & p' & o' & Hin & Ht & -> & ->)].
    2: { right. exists i, p', o'. repeat split; try done. by right. }
    unfold index_label in H.
    destruct (truthy (strip (node_str o))) eqn:Ht; [|by left].
    destruct subj as [ident| |]; simpl in H; try by left.
    rewrite lookup_insert in H. case_decide as Hk; [|by left].
    injection H as <-. right. exists ident, p, o.
    repeat split; try done. by left.
Qed.

(** A key that no statement writes keeps its label. *)
Lemma index_label_fold_unwritten labelled k : forall lx,
  (forall ident p o,
     In (URIRef ident, p, o) labelled ->
     truthy (strip (node_str o)) = true ->
     lower (extract_short_id ident) <> k) ->
  _id_to_label (fold_left index_label labelled lx) !! k
  = _id_to_label lx !! k.
Proof.
  induction labelled as [|[[subj p] o] labelled IH]; intros lx Hno; [done|].
  cbn [fold_left]. rewrite IH.
  2: { intros i p' o' Hin. apply (Hno i p' o'). by right. }
  unfold index_label. destruct (truthy (strip (node_str o))) eqn:Ht; [|done].
  destruct subj as [ident| |]; simpl; try done.
  rewrite lookup_insert_ne; [done|]. apply (Hno ident p o); [by left|done].
Qed.

Lemma is_label_predicate_spec p :
  is_label_predicate p = true <-> p = URIRef RDFS_label.
Proof.
  destruct p as [s| |]; simpl; [|done..].
  rewrite String.eqb_eq. split; [by intros ->|by intros [= ->]].
Qed.

Lemma labelled_In (graph : list Triple) s p o :
  In (s, p, o)
     (List.filter (fun t : Triple => is_label_predicate (snd (fst t))) graph)
  <-> In (s, p, o) graph /\ p = URIRef RDFS_label.
Proof. rewrite filter_In. simpl. by rewrite is_label_predicate_spec. Qed.

(** X4: an identifier is in the lexicon exactly when its lowered and
    stripped form is the lowered short identifier of a named subject of
    some statement of the graph, whatever the statement says; blank
    nodes and literals in subject position add nothing. *)
Theorem has_id_spec (graph : list Triple) (x : string) :
  has_id (build_lexicon graph) x = true
  <-> exists ident p o,
        In (URIRef ident, p, o) graph
        /\ lower (extract_short_id ident) = strip (lower x).
Proof.
  unfold has_id, build_lexicon. rewrite bool_decide_eq_true.
  destruct (index_subject_fold graph
              (fold_left index_label
                 (List.filter (fun t : Triple => is_label_predicate (snd (fst t)))
                              graph) empty_lexicon)) as (_ & _ & Hi).
  rewrite Hi.
  destruct (index_label_fold
              (List.filter (fun t : Triple => is_label_predicate (snd (fst t)))
                           graph) empty_lexicon) as (-> & _).
  simpl. split; [intros [H|H]; [set_solver|done]|by right].
Qed.

(** X5: a label is in the lexicon exactly when its lowered and stripped
    form is the lowered, stripped object of some [rdfs:label] statement
    of the graph whose object is not blank. *)
Theorem has_label_spec (graph : list Triple) (x : string) :
  has_label (build_lexicon graph) x = true
  <-> exists s o,
        In (s, URIRef RDFS_label, o) graph
        /\ strip (node_str o) <> ""
        /\ lower (strip (node_str o)) = strip (lower x).
Proof.
  unfold has_label, build_lexicon. rewrite bool_decide_eq_true.
  destruct (index_subject_fold graph
              (fold_left index_label
                 (List.filter (fun t : Triple => is_label_predicate (snd (fst t)))
                              graph) empty_lexicon)) as (-> & _ & _).
  destruct (index_label_fold
              (List.filter (fun t : Triple => is_label_predicate (snd (fst t)))
                           graph) empty_lexicon) as (_ & Hl).
  rewrite Hl. simpl. split.
  - intros [H|(s & p & o & Hin & Ht & Hx)]; [set_solver|].
    apply labelled_In in Hin as [Hin ->]. exists s, o.
    repeat split; try done. intros E. rewrite E in Ht. done.
  - intros (s & o & Hin & Hne & Hx). right. exists s, (URIRef RDFS_label), o.
    split; [by apply labelled_In|]. split; [|done].
    unfold truthy. by destruct (String.eqb_spec (strip (node_str o)) "").
Qed.

(** X6: a label found by the reverse lookup is never empty, carries no
    blank at either end, is the object of a label statement about a
    named subject with that short identifier, and both membership tests
    agree with it: the identifier is in the lexicon and the label is a
    label of the lexicon. *)
Theorem get_label_by_id_sound (graph : list Triple) (x l : string) :
  get_label_by_id (build_lexicon graph) x = Some l ->
  has_id (build_lexicon graph) x = true
  /\ has_label (build_lexicon graph) l = true
  /\ l <> "" /\ strip l = l
  /\ exists ident o,
       In (URIRef ident, URIRef RDFS_label, o) graph
       /\ l = strip (node_str o)
       /\ lower (extract_short_id ident) = strip (lower x).
Proof.
  unfold get_label_by_id. intros H.
  assert (Hsrc : exists ident o,
             In (URIRef ident, URIRef RDFS_label, o) graph
             /\ truthy (strip (node_str o)) = true
             /\ l = strip (node_str o)
             /\ lower (extract_short_id ident) = strip (lower x)).
  { unfold build_lexicon in H.
    destruct (index_subject_fold graph
                (fold_left index_label
                   (List.filter
                      (fun t : Triple => is_label_predicate (snd (fst t)))
                      graph) empty_lexicon)) as (_ & Hm & _).
    rewrite Hm in H.
    apply index_label_fold_lookup in H
      as [H|(ident & p & o & Hin & Ht & -> & Hk)].
    { simpl in H. by rewrite lookup_empty in H. }
    apply labelled_In in Hin as [Hin ->]. by exists ident, o. }
  destruct Hsrc as (ident & o & Hin & Ht & -> & Hk).
  assert (Hne : strip (node_str o) <> "").
  { intros E. rewrite E in Ht. done. }
  split; [apply has_id_spec; eauto|].
  split.
  { apply has_label_spec. exists (URIRef ident), o.
    repeat split; try done. by rewrite strip_lower, strip_idempotent. }
  split; [done|]. split; [apply strip_idempotent|].
  by exists ident, o.
Qed.

Lemma get_label_by_id_sound_witness :
  has_id Demo.lexicon " cl_0000001" = true
  /\ has_label Demo.lexicon "Cell" = true.
Proof.
  destruct (get_label_by_id_sound
              [(URIRef Demo.cell_uri, URIRef RDFS_label, Literal " Cell ")]
              " cl_0000001" "Cell" eq_refl) as (Hid & Hlabel & _).
  split; [exact Hid|exact Hlabel].
Defined.

(** X7: when several label statements name the same identifier, the
    last one with a non-empty label gives the label of the reverse
    lookup. *)
Theorem last_label_wins (before after : list Triple) (ident : string)
    (o : Node) (x : string) :
  strip (node_str o) <> "" ->
  lower (extract_short_id ident) = strip (lower x) ->
  (forall ident' o',
     In (URIRef ident', URIRef RDFS_label, o') after ->
     strip (node_str o') <> "" ->
     lower (extract_short_id ident') <> lower (extract_short_id ident)) ->
  get_label_by_id
    (build_lexicon
       (before ++ (URIRef ident, URIRef RDFS_label, o) :: after)) x
  = Some (strip (node_str o)).
Proof.
  intros Hne Hk Hafter. unfold get_label_by_id, build_lexicon.
  match goal with
  | |- _id_to_label (fold_left index_subject ?g ?lx) !! _ = _ =>
      destruct (index_subject_fold g lx) as (_ & -> & _)
  end.
  rewrite List.filter_app. cbn [List.filter snd fst is_label_predicate].
  rewrite String.eqb_refl, fold_left_app. cbn [fold_left].
  rewrite index_label_fold_unwritten.
  - unfold index_label.
    assert (truthy (strip (node_str o)) = true) as ->.
    { unfold truthy. by destruct (String.eqb_spec (strip (node_str o)) ""). }
    simpl. by rewrite Hk, lookup_insert_eq.
  - intros ident' p' o' Hin Ht Heq. apply labelled_In in Hin as [Hin ->].
    apply (Hafter ident' o' Hin); [|by rewrite Heq, Hk].
    intros E. rewrite E in Ht. done.
Qed.

Lemma last_label_wins_witness :
  get_label_by_id
    (build_lexicon
       [ (URIRef Demo.cell_uri, URIRef RDFS_label, Literal "cellule");
         (URIRef Demo.cell_uri, URIRef RDFS_label, Literal " Cell ");
         (URIRef Demo.neuron_uri, URIRef RDFS_label, Literal "neuron") ])
    "CL_0000001"
  = Some "Cell".
Proof.
  apply (last_label_wins
           [(URIRef Demo.cell_uri, URIRef RDFS_label, Literal "cellule")]
           [(URIRef Demo.neuron_uri, URIRef RDFS_label, Literal "neuron")]
           Demo.cell_uri (Literal " Cell ") "CL_0000001").
  - discriminate.
  - reflexivity.
  - intros ident' o' [[= <- <-]|[]] _. discriminate.
Defined.

(** ** download_submission *)

(** What a run of lines 98-142 leaves on disk: nothing new, or the body
    of an accepted response under the cache path. *)
Lemma fetch_artifact_files w c ontology id v dest_dir st r st' :
  fetch_artifact w c ontology id v dest_dir st = (r, st') ->
  let p := path_join dest_dir (ontology ++ "_" ++ v ++ ".owl") in
  (files st' = files st
   /\ (forall q u, r = Ok (q, u) -> on_disk p st = true))
  \/ exists url resp,
       r = Ok (p, v)
       /\ on_disk p st = false
       /\ remote_download w url = Ok resp
       /\ looks_like_json resp = false
       /\ ((400 <=? status_code resp) && (status_code resp <? 600))%Z = false
       /\ files st' = <[p := content resp]> (files st)
       /\ trace st' = (trace st ++ [Download url])%list
       /\ last_download_url st' = Some url
       /\ exists prefix, url = prefix ++ "apikey=" ++ api_key c.
Proof.
  intros H p. revert H. unfold_fetch. intros H. simpl in H.
  assert (Hne : p <> dest_dir) by apply path_join_ne.
  fold p in H.
  repeat (case_inner H; simpl in H).
  all: injection H as Hr Hs; subst r st'; simpl.
  all: repeat match goal with
         | H : on_disk _ (Build_State _ _ _ _) = _ |- _ =>
             rewrite (on_disk_mkdir p dest_dir _ _ _ _ st Hne eq_refl eq_refl)
               in H
         end.
  all: try (left; split; [done|]; intros q u; by (discriminate || eauto)).
  all: right; eexists _, _; repeat split; try eassumption; try done.
  all: eexists; by rewrite <- !append_assoc.
Qed.

Lemma select_submission_requested ontology requested subs sub r :
  select_submission ontology requested subs = Ok sub ->
  nonempty requested = Some r ->
  In sub subs /\ version sub = Some r /\ version_or_latest sub = r.
Proof.
  unfold select_submission. destruct subs as [|first others]; [done|].
  intros H Hr. rewrite Hr in H.
  destruct (List.filter _ (first :: others)) as [|m ms] eqn:E; [done|].
  injection H as ->.
  assert (Hin : In sub (List.filter
                          (fun s => String.eqb (version_str s) r)
                          (first :: others))) by (rewrite E; by left).
  apply filter_In in Hin as [Hin Hv]. apply String.eqb_eq in Hv.
  assert (Ht : truthy r = true).
  { unfold nonempty in Hr. destruct requested as [s|]; [|done].
    destruct (truthy s) eqn:Hs; [|done]. by injection Hr as <-. }
  split; [done|]. unfold version_str, version_or_latest, or_else in *.
  destruct (version sub) as [s|].
  - destruct (truthy s) eqn:Hs; [by subst|]. subst r. done.
  - subst r. done.
Qed.

Lemma select_submission_unrequested ontology requested subs sub :
  select_submission ontology requested subs = Ok sub ->
  nonempty requested = None ->
  version_or_latest sub = latest_version_of subs.
Proof.
  unfold select_submission. destruct subs as [|first others]; [done|].
  intros H Hr. rewrite Hr in H. by injection H as ->.
Qed.

Lemma download_submission_steps w c ontology requested dest_dir st p v st' :
  download_submission w c ontology requested dest_dir st = (Ok (p, v), st') ->
  exists subs sub id,
    remote_submissions w ontology = Ok subs
    /\ select_submission ontology requested subs = Ok sub
    /\ submission_id_of sub = Ok id
    /\ v = version_or_latest sub
    /\ p = path_join dest_dir (ontology ++ "_" ++ v ++ ".owl")
    /\ fetch_artifact w c ontology id v dest_dir
         (logged (ListSubmissions ontology) st) = (Ok (p, v), st').
Proof.
  rewrite download_submission_run. cbv zeta.
  destruct (remote_submissions w ontology) as [subs|e]; [|done].
  destruct (select_submission ontology requested subs) as [sub|e] eqn:Es;
    [|done].
  destruct (submission_id_of sub) as [id|e] eqn:Ei; [|done].
  intros H. pose proof (fetch_artifact_run _ _ _ _ _ _ _ _ _ H)
    as (_ & _ & _ & _ & Hok).
  destruct (Hok p v eq_refl) as (-> & -> & _).
  by exists subs, sub, id.
Qed.

(** X8: a call of [download_submission] that fails leaves the files as
    they were: neither a rejected body nor a partial download reaches
    the cache. *)
Theorem failed_download_writes_nothing
    (w : World) (c : BioPortalClient) (ontology : string)
    (requested : option string) (dest_dir : string) (st st' : State)
    (e : Exn) :
  download_submission w c ontology requested dest_dir st = (Err e, st') ->
  files st' = files st.
Proof.
  rewrite download_submission_run. cbv zeta.
  destruct (remote_submissions w ontology) as [subs|e0];
    [|by intros [= _ <-]].
  destruct (select_submission ontology requested subs) as [sub|e0];
    [|by intros [= _ <-]].
  destruct (submission_id_of sub) as [id|e0]; [|by intros [= _ <-]].
  intros H. apply fetch_artifact_files in H as [[H _]|(u & r & Hr & _)];
    [done|discriminate].
Qed.

Lemma failed_download_writes_nothing_witness :
  files (snd (download_submission Faulty.world (client Demo.tagger) "CL" None
                                  "downloads" Demo.fresh))
  = files Demo.fresh.
Proof.
  eapply (failed_download_writes_nothing
            Faulty.world (client Demo.tagger) "CL" None "downloads"
            Demo.fresh).
  vm_compute. reflexivity.
Defined.

(** X9: when [download_submission] returns a path that was not on disk
    before, it has fetched the submission list and made one download,
    from a URL that ends with the API key parameter; the response was
    no HTTP error and passed the test for JSON bodies, and its body,
    unchanged, is the content of the file at the returned path. *)
Theorem fresh_download_stores_body
    (w : World) (c : BioPortalClient) (ontology : string)
    (requested : option string) (dest_dir : string) (st st' : State)
    (p v : string) :
  download_submission w c ontology requested dest_dir st = (Ok (p, v), st') ->
  on_disk p st = false ->
  exists url resp,
    remote_download w url = Ok resp
    /\ looks_like_json resp = false
    /\ ((400 <=? status_code resp) && (status_code resp <? 600))%Z = false
    /\ files st' = <[p := content resp]> (files st)
    /\ trace st' = (trace st ++ [ListSubmissions ontology; Download url])%list
    /\ last_download_url st' = Some url
    /\ exists prefix, url = prefix ++ "apikey=" ++ api_key c.
Proof.
  intros H Hd.
  apply download_submission_steps in H
    as (subs & sub & id & _ & _ & _ & _ & -> & H).
  apply fetch_artifact_files in H
    as [[_ H]|(url & resp & _ & _ & Hr & Hj & Hs & Hf & Ht & Hu & Hk)].
  { specialize (H _ _ eq_refl). simpl in H. unfold on_disk in *.
    simpl in H. congruence. }
  exists url, resp. repeat split; try done.
  rewrite Ht. simpl. by rewrite <- app_assoc.
Qed.

Lemma fresh_download_stores_body_witness :
  exists url resp,
    remote_download Demo.world url = Ok resp
    /\ files (snd (download_submission Demo.world (client Demo.tagger) "CL"
                                       None "downloads" Demo.fresh))
       = <["downloads/CL_2024-06-01.owl" := content resp]> (files Demo.fresh).
Proof.
  destruct (fresh_download_stores_body
              Demo.world (client Demo.tagger) "CL" None "downloads"
              Demo.fresh
              (snd (download_submission Demo.world (client Demo.tagger) "CL"
                                        None "downloads" Demo.fresh))
              "downloads/CL_2024-06-01.owl" "2024-06-01")
    as (url & resp & Hget & _ & _ & Hfiles & _).
  - vm_compute. reflexivity.
  - reflexivity.
  - exists url, resp. split; [exact Hget|exact Hfiles].
Defined.

(** X10: the version that [download_submission] returns is the
    requested version when one is requested, so the cache file is named
    after the ontology and the requested version; when none is
    requested it is the latest version as [annotate_terms] computes it
    from the same submission list. *)
Theorem download_resolves_version
    (w : World) (c : BioPortalClient) (ontology : string)
    (requested : option string) (dest_dir : string) (st st' : State)
    (p v : string) :
  download_submission w c ontology requested dest_dir st = (Ok (p, v), st') ->
  (forall r, nonempty requested = Some r ->
     v = r /\ p = path_join dest_dir (ontology ++ "_" ++ r ++ ".owl"))
  /\ (nonempty requested = None ->
      forall subs, remote_submissions w ontology = Ok subs ->
      v = latest_version_of subs).
Proof.
  intros H.
  apply download_submission_steps in H
    as (subs & sub & id & Hs & Hsel & _ & Hv & Hp & _).
  split.
  - intros r Hr.
    destruct (select_submission_requested _ _ _ _ _ Hsel Hr) as (_ & _ & Hq).
    rewrite Hq in Hv. by subst.
  - intros Hr subs' Hs'. rewrite Hs in Hs'. injection Hs' as <-.
    rewrite Hv. by apply (select_submission_unrequested ontology requested).
Qed.

Lemma download_resolves_version_witness :
  "2023-01-01" = "2023-01-01"
  /\ "downloads/CL_2023-01-01.owl"
     = path_join "downloads" ("CL" ++ "_" ++ "2023-01-01" ++ ".owl").
Proof.
  destruct (download_resolves_version
              Demo.world (client Demo.tagger) "CL" (Some "2023-01-01")
              "downloads" Demo.fresh
              (snd (download_submission Demo.world (client Demo.tagger) "CL"
                                        (Some "2023-01-01") "downloads"
                                        Demo.fresh))
              "downloads/CL_2023-01-01.owl" "2023-01-01")
    as [Hreq _].
  - vm_compute. reflexivity.
  - exact (Hreq "2023-01-01" eq_refl).
Defined.

(** X11: when the selected submission has no submission identifier, or
    has the identifier zero, [download_submission] fails with a
    [RuntimeError] right after fetching the submission list: it creates
    no directory, downloads nothing, and does not look for a cached
    file. *)
Theorem missing_submission_id_fails
    (w : World) (c : BioPortalClient) (ontology : string)
    (requested : option string) (dest_dir : string) (st : State)
    (subs : list Submission) (sub : Submission) :
  remote_submissions w ontology = Ok subs ->
  select_submission ontology requested subs = Ok sub ->
  submissionId sub = None \/ submissionId sub = Some 0%Z ->
  download_submission w c ontology requested dest_dir st
  = (Err (RuntimeError "No submissionId found in submission payload."),
     logged (ListSubmissions ontology) st).
Proof.
  intros Hs Hsel Hid. rewrite download_submission_run, Hs, Hsel. cbv zeta.
  unfold submission_id_of. by destruct Hid as [->| ->].
Qed.

Lemma missing_submission_id_fails_witness :
  download_submission
    {| remote_submissions o :=
         Ok [{| version := Some "2024-06-01"; submissionId := Some 0%Z |}];
       remote_annotator := remote_annotator Demo.world;
       remote_download := remote_download Demo.world;
       rdf_parse := rdf_parse Demo.world |}
    (client Demo.tagger) "CL" None "downloads" Demo.fresh
  = (Err (RuntimeError "No submissionId found in submission payload."),
     logged (ListSubmissions "CL") Demo.fresh).
Proof.
  apply (missing_submission_id_fails _ _ _ _ _ _
           [{| version := Some "2024-06-01"; submissionId := Some 0%Z |}]
           {| version := Some "2024-06-01"; submissionId := Some 0%Z |});
    [reflexivity|reflexivity|by right].
Defined.

(** ** annotate_terms *)

Lemma logged_logged_all e evs st :
  logged_all evs (logged e st) = logged_all (e :: evs) st.
Proof. unfold logged_all, logged. simpl. by rewrite <- app_assoc. Qed.

Lemma logged_all_nil st : logged_all [] st = st.
Proof. unfold logged_all. rewrite app_nil_r. by destruct st. Qed.

Lemma logged_all_app evs1 evs2 st :
  logged_all evs2 (logged_all evs1 st) = logged_all (evs1 ++ evs2) st.
Proof. unfold logged_all. simpl. by rewrite <- app_assoc. Qed.

Section Queries.

Context (w : World) (ontology : string) (version : option string)
        (on_version_missing latest_version : string) (res : Resolution).

(** When every query is answered the loop makes them all, in order. *)
Lemma annotate_each_answered prepared : forall acc st,
  Forall (answered w ontology) prepared ->
  exists news,
    annotate_each w ontology version on_version_missing latest_version res
                  prepared acc st
    = (Ok (acc ++ news)%list, logged_all (queries ontology prepared) st)
    /\ Forall2 (outcome_of w ontology version on_version_missing
                           latest_version res) prepared news.
Proof.
  induction prepared as [|term rest IH]; intros acc st Hall.
  - exists []. rewrite app_nil_r, logged_all_nil. by split; [|constructor].
  - inversion Hall as [|? ? [annotations Ha] Hrest]; subst.
    cbn [annotate_each]. unfold bind. rewrite annotate_term_run, Ha.
    destruct annotations as [|top tl].
    + destruct (IH (acc ++ [not_matched term])%list
                  (logged (AnnotateText term ontology) st) Hrest)
        as (news & -> & Hn).
      exists (not_matched term :: news).
      rewrite logged_logged_all, <- app_assoc. split; [done|].
      constructor; [|done]. unfold outcome_of. by rewrite Ha.
    + destruct (IH (acc ++ [evaluate_candidate version on_version_missing
                              latest_version res term top])%list
                  (logged (AnnotateText term ontology) st) Hrest)
        as (news & -> & Hn).
      eexists (_ :: news).
      rewrite logged_logged_all, <- app_assoc. split; [done|].
      constructor; [|done]. unfold outcome_of. by rewrite Ha.
Qed.

(** The first query that fails ends the loop with its error; the terms
    after it are not queried. *)
Lemma annotate_each_failed before bad after e : forall acc st,
  Forall (answered w ontology) before ->
  remote_annotator w bad ontology = Err e ->
  annotate_each w ontology version on_version_missing latest_version res
                (before ++ bad :: after) acc st
  = (Err e, logged_all (queries ontology (before ++ [bad])) st).
Proof.
  induction before as [|term rest IH]; intros acc st Hall Hbad.
  - cbn [app annotate_each]. unfold bind.
    by rewrite annotate_term_run, Hbad.
  - inversion Hall as [|? ? [annotations Ha] Hrest]; subst.
    cbn [app annotate_each]. unfold bind. rewrite annotate_term_run, Ha.
    destruct annotations as [|top tl]; rewrite IH by done;
      by rewrite logged_logged_all.
Qed.

End Queries.

(** The outcomes of a call are those of its terms, under one latest
    version and one resolution. *)
Lemma annotate_terms_outcomes w t ontology terms file_path version
    on_version_missing st st' prepared outcomes :
  normalize_terms terms file_path st = (Ok prepared, st) ->
  annotate_terms w t ontology terms file_path version on_version_missing st
  = (Ok outcomes, st') ->
  exists latest res,
    Forall2 (outcome_of w ontology version on_version_missing latest res)
            prepared outcomes
    /\ (prepared <> [] ->
        exists subs st1,
          remote_submissions w ontology = Ok subs
          /\ latest = latest_version_of subs
          /\ resolve_version w t ontology version on_version_missing subs
               (logged (ListSubmissions ontology) st) = (Ok res, st1)).
Proof.
  intros Hn H. destruct prepared as [|term rest].
  - rewrite (annotate_terms_empty _ _ _ _ _ _ _ _ Hn) in H.
    injection H as <- <-.
    exists "latest", {| resolved_version := None; owl_lexicon := None;
                        version_fallback := false |}.
    split; [constructor|done].
  - rewrite (annotate_terms_run _ _ _ _ _ _ _ _ _ _ Hn) in H. cbv zeta in H.
    destruct (remote_submissions w ontology) as [subs|e]; [|done].
    destruct (resolve_version _ _ _ _ _ _ _) as [[res|e] st2] eqn:Hr;
      [|done].
    apply annotate_each_run in H as (_ & _ & _ & _ & news & -> & Hf).
    exists (latest_version_of subs), res. split; [done|].
    intros _. by exists subs, st2.
Qed.

Lemma Forall2_Forall_right {A B} (P : A -> B -> Prop) (Q : B -> Prop) l k :
  Forall2 P l k -> (forall x y, P x y -> Q y) -> Forall Q k.
Proof. induction 1; intros HPQ; constructor; eauto. Qed.

Lemma or_opt_requested a version :
  otruthy version = true -> is_Some (or_opt a version).
Proof.
  intros Hv. unfold or_opt. destruct (otruthy a) eqn:Ha.
  - destruct a; [eauto|done].
  - destruct version; [eauto|done].
Qed.

Lemma evaluate_candidate_shape version on_version_missing latest res term top :
  let o := evaluate_candidate version on_version_missing latest res term top in
  In (comment o) comments
  /\ comment o <> "not matched at all"
  /\ is_Some (ontology_version o).
Proof.
  unfold evaluate_candidate.
  destruct (verify_candidate _ _ _) as [in_spec owl_label].
  destruct (otruthy version) eqn:Hv; simpl.
  - destruct (version_fallback res), in_spec; simpl;
      try destruct (String.eqb on_version_missing "latest"); simpl;
      (split; [unfold comments; simpl; tauto|]); (split; [done|]);
      eauto using or_opt_requested.
  - split; [unfold comments; simpl; tauto|]. split; [done|]. eauto.
Qed.

Lemma outcome_of_shape w ontology version on_version_missing latest res
    term o :
  outcome_of w ontology version on_version_missing latest res term o ->
  In (comment o) comments
  /\ (comment o = "not matched at all" <-> ontology_version o = None)
  /\ (ontology_version o = None -> o = not_matched term).
Proof.
  unfold outcome_of.
  destruct (remote_annotator w term ontology) as [[|top tl]|e]; [| |done].
  - intros ->. split; [by left|]. by split.
  - intros ->.
    destruct (evaluate_candidate_shape version on_version_missing latest res
                term top) as (Hin & Hne & [x Hx]).
    split; [done|]. rewrite Hx. by split; [split|].
Qed.


(** X12: the comment of every outcome of a call is one of the six
    comments of the code, and an outcome has no ontology version exactly
    when its comment is "not matched at all"; it then has no
    standardized term and no identifier either. *)
Theorem outcome_comments_and_versions
    (w : World) (t : OntologyTagger) (ontology : string)
    (terms : option (list (option string))) (file_path : option string)
    (requested : option string) (on_version_missing : string)
    (st st' : State) (outcomes : list AnnotationOutcome) :
  annotate_terms w t ontology terms file_path requested on_version_missing st
  = (Ok outcomes, st') ->
  Forall (fun o =>
            In (comment o) comments
            /\ (comment o = "not matched at all"
                <-> ontology_version o = None)
            /\ (ontology_version o = None ->
                standardized_term o = None /\ ontology_id o = None))
         outcomes.
Proof.
  intros H.
  destruct (normalize_terms terms file_path st) as [[prepared|e] st0] eqn:Hn.
  2: { unfold annotate_terms, bind in H. by rewrite Hn in H. }
  pose proof (normalize_terms_state _ _ _ _ _ Hn) as ->.
  destruct (annotate_terms_outcomes _ _ _ _ _ _ _ _ _ _ _ Hn H)
    as (latest & res & Hf & _).
  eapply Forall2_Forall_right; [exact Hf|].
  intros term o Ho. apply outcome_of_shape in Ho as (Hin & Hiff & Hnone).
  split; [done|]. split; [done|]. intros Hv. by rewrite (Hnone Hv).
Qed.

Lemma outcome_comments_and_versions_witness :
  Forall (fun o => In (comment o) comments)
         [ not_matched "unicorn horn";
           {| input_text := "cell";
              standardized_term := Some "cell";
              ontology_id := Some "CL_0000001";
              ontology_version := Some "2024-06-01";
              comment := "matched in latest" |} ].
Proof.
  eapply Forall_impl.
  - apply (outcome_comments_and_versions
             Demo.world Demo.tagger "CL"
             (Some [Some "unicorn horn"; Some "cell"]) None None "error"
             Demo.fresh
             (logged_all [ListSubmissions "CL";
                          AnnotateText "unicorn horn" "CL";
                          AnnotateText "cell" "CL"] Demo.fresh)).
    reflexivity.
  - intros o Ho. exact (proj1 Ho).
Defined.



Lemma evaluate_candidate_unrequested version on_version_missing latest
    term top :
  otruthy version = false ->
  evaluate_candidate version on_version_missing latest
    {| resolved_version := None; owl_lexicon := None;
       version_fallback := false |} term top
  = {| input_text := term;
       standardized_term := prefLabel (class_details top);
       ontology_id := candidate_short_id (at_id (class_details top));
       ontology_version := Some latest;
       comment := "matched in latest" |}.
Proof. intros Hv. unfold evaluate_candidate. simpl. by rewrite Hv. Qed.

Lemma nonempty_None_falsy version :
  nonempty version = None -> otruthy version = false.
Proof.
  unfold nonempty. destruct version as [s|]; [|done]. simpl.
  by destruct (truthy s).
Qed.

(** X14: a call without a requested version, whatever the policy,
    fetches the submission list once, then makes one live query per
    normalized term, in order, and nothing else: no download, no file
    written. A term with a candidate gets the preferred label and the
    short identifier of the candidate, the latest version, and the
    comment "matched in latest"; a term without one gets the unmatched
    outcome. *)
Theorem unrequested_version_uses_latest
    (w : World) (t : OntologyTagger) (ontology : string)
    (terms : option (list (option string))) (file_path : option string)
    (requested : option string) (on_version_missing : string) (st : State)
    (term : string) (rest : list string) (subs : list Submission) :
  normalize_terms terms file_path st = (Ok (term :: rest), st) ->
  nonempty requested = None ->
  remote_submissions w ontology = Ok subs ->
  Forall (answered w ontology) (term :: rest) ->
  exists outcomes,
    annotate_terms w t ontology terms file_path requested on_version_missing
                   st
    = (Ok outcomes,
       logged_all (ListSubmissions ontology :: queries ontology (term :: rest))
                  st)
    /\ Forall2
         (fun term o =>
            match remote_annotator w term ontology with
            | Ok (top :: _) =>
                o = {| input_text := term;
                       standardized_term := prefLabel (class_details top);
                       ontology_id :=
                         candidate_short_id (at_id (class_details top));
                       ontology_version := Some (latest_version_of subs);
                       comment := "matched in latest" |}
            | _ => o = not_matched term
            end) (term :: rest) outcomes.
Proof.
  intros Hn Hv Hs Hall.
  rewrite (annotate_terms_run _ _ _ _ _ _ _ _ _ _ Hn). cbv zeta.
  rewrite Hs, (resolve_version_unrequested _ _ _ _ _ _ _ Hv).
  destruct (annotate_each_answered w ontology requested on_version_missing
              (latest_version_of subs)
              {| resolved_version := None; owl_lexicon := None;
                 version_fallback := false |}
              (term :: rest) [] (logged (ListSubmissions ontology) st) Hall)
    as (news & -> & Hf).
  exists news. rewrite logged_logged_all. split; [done|].
  eapply Forall2_impl; [exact Hf|].
  intros term' o Ho. unfold outcome_of in Ho.
  destruct (remote_annotator w term' ontology) as [[|top tl]|e];
    [done| |done].
  rewrite Ho. apply evaluate_candidate_unrequested.
  by apply nonempty_None_falsy.
Qed.

Lemma unrequested_version_uses_latest_witness :
  exists outcomes,
    annotate_terms Demo.world Demo.tagger "CL"
                   (Some [Some "cell"; Some "cell"]) None (Some "") "latest"
                   Demo.fresh
    = (Ok outcomes,
       logged_all [ListSubmissions "CL"; AnnotateText "cell" "CL";
                   AnnotateText "cell" "CL"] Demo.fresh).
Proof.
  destruct (unrequested_version_uses_latest
              Demo.world Demo.tagger "CL" (Some [Some "cell"; Some "cell"])
              None (Some "") "latest" Demo.fresh "cell" ["cell"]
              Demo.releases eq_refl eq_refl eq_refl)
    as (outcomes & Hrun & _).
  - repeat constructor; eexists; reflexivity.
  - exists outcomes. exact Hrun.
Defined.

(** X15: when the live query of a term fails, the call fails with that
    error and returns no outcome, also for the terms answered before;
    the terms after the failing one are not queried. *)
Theorem failed_query_aborts
    (w : World) (t : OntologyTagger) (ontology : string)
    (terms : option (list (option string))) (file_path : option string)
    (requested : option string) (on_version_missing : string)
    (st st2 : State) (before after : list string) (bad : string)
    (subs : list Submission) (res : Resolution) (e : Exn) :
  normalize_terms terms file_path st = (Ok (before ++ bad :: after)%list, st) ->
  remote_submissions w ontology = Ok subs ->
  resolve_version w t ontology requested on_version_missing subs
                  (logged (ListSubmissions ontology) st) = (Ok res, st2) ->
  Forall (answered w ontology) before ->
  remote_annotator w bad ontology = Err e ->
  annotate_terms w t ontology terms file_path requested on_version_missing st
  = (Err e, logged_all (queries ontology (before ++ [bad])) st2).
Proof.
  intros Hn Hs Hr Hall Hbad.
  assert (Hne : exists term rest, (before ++ bad :: after)%list = term :: rest).
  { destruct before; simpl; eauto. }
  destruct Hne as (term & rest & Heq). rewrite Heq in Hn.
  rewrite (annotate_terms_run _ _ _ _ _ _ _ _ _ _ Hn). cbv zeta.
  rewrite Hs, Hr, <- Heq. by apply annotate_each_failed.
Qed.

Lemma failed_query_aborts_witness :
  annotate_terms Faulty.world Demo.tagger "CL"
                 (Some [Some "cell"; Some "neuron"; Some "unicorn horn"])
                 None None "error" Demo.fresh
  = (Err (TransportError "timed out"),
     logged_all [AnnotateText "cell" "CL"; AnnotateText "neuron" "CL"]
                (logged (ListSubmissions "CL") Demo.fresh)).
Proof.
  apply (failed_query_aborts
           Faulty.world Demo.tagger "CL"
           (Some [Some "cell"; Some "neuron"; Some "unicorn horn"]) None
           None "error" Demo.fresh (logged (ListSubmissions "CL") Demo.fresh)
           ["cell"] ["unicorn horn"] "neuron" Demo.releases
           {| resolved_version := None; owl_lexicon := None;
              version_fallback := false |});
    try reflexivity.
  repeat constructor. eexists. reflexivity.
Defined.

Lemma evaluate_candidate_found version v on_version_missing latest lexicon
    term top :
  nonempty version = Some v ->
  let o := evaluate_candidate version on_version_missing latest
             {| resolved_version := Some v; owl_lexicon := lexicon;
                version_fallback := false |} term top in
  (ontology_version o = Some v
   /\ comment o = "matched in user specified version")
  \/ (on_version_missing <> "latest"
      /\ ontology_version o = Some v /\ standardized_term o = None
      /\ comment o = "strict mode: not matched in specified version")
  \/ (on_version_missing = "latest"
      /\ ontology_version o = Some latest
      /\ comment o = "matched in latest, no match in specified version").
Proof.
  intros Hv. unfold evaluate_candidate. cbn [owl_lexicon version_fallback
                                             resolved_version].
  destruct (verify_candidate _ _ _) as [in_spec owl_label].
  assert (Ht : truthy v = true /\ otruthy version = true).
  { unfold nonempty in Hv. destruct version as [s|]; [|done]. simpl.
    destruct (truthy s) eqn:Hs; [|done]. by injection Hv as <-. }
  destruct Ht as [Ht Ho]. rewrite Ho.
  assert (Hor : or_opt (Some v) version = Some v).
  { unfold or_opt. simpl. by rewrite Ht. }
  destruct in_spec; simpl.
  - left. by rewrite Hor.
  - destruct (String.eqb_spec on_version_missing "latest") as [->|Hp]; simpl.
    + right. right. done.
    + right. left. by rewrite Hor.
Qed.

(** X16: when the requested version is the version string of a
    submission and the call returns, every outcome is the unmatched
    outcome, or reports the requested version with the comment "matched
    in user specified version", or, under the strict policy, reports
    the requested version without a standardized term and with the
    comment of the strict mode, or, under the policy "latest", reports
    the latest version with the comment "matched in latest, no match in
    specified version". Under the strict policy no outcome is
    attributed to the latest version. *)
Theorem found_version_outcomes
    (w : World) (t : OntologyTagger) (ontology : string)
    (terms : option (list (option string))) (file_path : option string)
    (requested : option string) (on_version_missing : string)
    (st st' : State) (prepared : list string)
    (outcomes : list AnnotationOutcome)
    (subs : list Submission) (v : string) :
  normalize_terms terms file_path st = (Ok prepared, st) ->
  annotate_terms w t ontology terms file_path requested on_version_missing st
  = (Ok outcomes, st') ->
  remote_submissions w ontology = Ok subs ->
  nonempty requested = Some v ->
  In v (map version_str subs) ->
  Forall
    (fun o =>
       o = not_matched (input_text o)
       \/ (ontology_version o = Some v
           /\ comment o = "matched in user specified version")
       \/ (on_version_missing <> "latest"
           /\ ontology_version o = Some v /\ standardized_term o = None
           /\ comment o = "strict mode: not matched in specified version")
       \/ (on_version_missing = "latest"
           /\ ontology_version o = Some (latest_version_of subs)
           /\ comment o = "matched in latest, no match in specified version"))
    outcomes.
Proof.
  intros Hn H Hs Hv Hin.
  destruct (annotate_terms_outcomes _ _ _ _ _ _ _ _ _ _ _ Hn H)
    as (latest & res & Hf & Hres).
  destruct prepared as [|term rest].
  { inversion Hf. constructor. }
  destruct (Hres ltac:(done)) as (subs' & st1 & Hs' & -> & Hr).
  rewrite Hs in Hs'. injection Hs' as <-.
  assert (Hfound : version_found requested subs = true).
  { unfold version_found. rewrite Hv. apply not_false_iff_true.
    intros Hf'. by apply existsb_version in Hf'. }
  rewrite (resolve_version_found _ _ _ _ _ _ _ Hfound) in Hr.
  destruct (download_submission _ _ _ _ _ _) as [[[p rv]|e] st2] eqn:Hd;
    [|done].
  destruct (OwlLexicon_init w p st2) as [[lx|e] st3]; [|done].
  injection Hr as <- <-.
  apply download_submission_steps in Hd
    as (subs' & sub & id & Hs' & Hsel & _ & Hrv & _).
  destruct (select_submission_requested _ _ _ _ _ Hsel Hv) as (_ & _ & Hq).
  rewrite Hq in Hrv. subst rv.
  eapply Forall2_Forall_right; [exact Hf|].
  intros term' o Ho. unfold outcome_of in Ho.
  destruct (remote_annotator w term' ontology) as [[|top tl]|e]; [| |done].
  - left. by subst o.
  - right. subst o. by apply evaluate_candidate_found.
Qed.

Lemma found_version_outcomes_witness :
  Forall
    (fun o =>
       o = not_matched (input_text o)
       \/ (ontology_version o = Some "2023-01-01"
           /\ comment o = "matched in user specified version")
       \/ ("error" <> "latest"
           /\ ontology_version o = Some "2023-01-01"
           /\ standardized_term o = None
           /\ comment o = "strict mode: not matched in specified version")
       \/ ("error" = "latest"
           /\ ontology_version o = Some (latest_version_of Demo.releases)
           /\ comment o = "matched in latest, no match in specified version"))
    [ {| input_text := "cell";
         standardized_term := Some "Cell";
         ontology_id := Some "CL_0000001";
         ontology_version := Some "2023-01-01";
         comment := "matched in user specified version" |};
      {| input_text := "neuron";
         standardized_term := None;
         ontology_id := Some "CL_0000540";
         ontology_version := Some "2023-01-01";
         comment := "strict mode: not matched in specified version" |} ].
Proof.
  apply (found_version_outcomes
           Demo.world Demo.tagger "CL" (Some [Some "cell"; Some "neuron"])
           None (Some "2023-01-01") "error" Demo.fresh
           (snd (annotate_terms Demo.world Demo.tagger "CL"
                                (Some [Some "cell"; Some "neuron"]) None
                                (Some "2023-01-01") "error" Demo.fresh))
           ["cell"; "neuron"] _ Demo.releases "2023-01-01").
  - reflexivity.
  - vm_compute. reflexivity.
  - reflexivity.
  - reflexivity.
  - simpl. tauto.
Defined.

(** ** The client, utils.py and main.py *)

Lemma rstrip_slash_slashes n : rstrip_slash (slashes n) = "".
Proof. induction n as [|n IH]; [done|]. simpl. by rewrite IH. Qed.

Lemma rstrip_slash_split s :
  exists n, s = rstrip_slash s ++ slashes n.
Proof.
  induction s as [|c r [n IH]]; [by exists 0|]. simpl.
  destruct (Ascii.eqb_spec c "/") as [->|Hc]; simpl.
  - destruct (String.eqb_spec (rstrip_slash r) "") as [E|E].
    + exists (S n). rewrite E in IH. simpl in IH. by rewrite IH at 1.
    + exists n. rewrite append_cons. by rewrite <- IH.
  - exists n. rewrite append_cons. by rewrite <- IH.
Qed.

Lemma rstrip_slash_no_slash s : ~ ends_with_slash (rstrip_slash s).
Proof.
  induction s as [|c r IH]; intros [q Hq].
  - destruct q; discriminate.
  - simpl in Hq.
    destruct (Ascii.eqb c "/" && String.eqb (rstrip_slash r) "") eqn:E.
    { destruct q; discriminate. }
    destruct q as [|a q].
    + injection Hq as -> Hr. rewrite Hr in E. done.
    + rewrite append_cons in Hq. injection Hq as -> Hr. apply IH. by exists q.
Qed.

Lemma rstrip_slash_app_slashes s n :
  rstrip_slash (s ++ slashes n) = rstrip_slash s.
Proof.
  induction s as [|c r IH]; [apply rstrip_slash_slashes|].
  rewrite append_cons. simpl. by rewrite IH.
Qed.

Lemma lstrip_slash_app_slashes n s :
  lstrip_slash (slashes n ++ s) = lstrip_slash s.
Proof.
  induction n as [|n IH]; [done|]. cbn [slashes]. rewrite append_cons.
  simpl. exact IH.
Qed.

(** X17: the client cannot be built with an empty key; with any other
    key it is built, keeps the key, and its base URL is the given URL
    without its trailing slashes, all of them. *)
Theorem client_init_base_url (key url : string) :
  (key = "" ->
   BioPortalClient_init key url
   = Err (ValueError "api_key is required for BioPortal access."))
  /\ (key <> "" ->
      exists c n,
        BioPortalClient_init key url = Ok c
        /\ api_key c = key
        /\ url = base_url c ++ slashes n
        /\ ~ ends_with_slash (base_url c)).
Proof.
  unfold BioPortalClient_init, truthy. split.
  - by intros ->.
  - intros Hk. destruct (String.eqb_spec key "") as [|_]; [done|]. simpl.
    destruct (rstrip_slash_split url) as [n Hn].
    eexists _, n. repeat split; [done|]. simpl. apply rstrip_slash_no_slash.
Qed.

Lemma client_init_base_url_witness :
  exists c n,
    BioPortalClient_init "key" "https://data.bioontology.org//" = Ok c
    /\ api_key c = "key"
    /\ "https://data.bioontology.org//" = base_url c ++ slashes n.
Proof.
  destruct (proj2 (client_init_base_url "key"
                     "https://data.bioontology.org//"))
    as (c & n & Hc & Hk & Hu & _).
  - discriminate.
  - exists c, n. repeat split; assumption.
Defined.

(** X18: the URL that the client builds for a path joins the base URL
    and the path with one slash: slashes at the end of the URL the
    client was built with and at the start of the path change nothing.
    An empty dictionary of parameters adds no query. *)
Theorem url_join_ignores_slashes
    (urlencode : list (string * string) -> string)
    (key url path : string) (n m : nat)
    (params : option (list (string * string))) (c1 c2 : BioPortalClient) :
  BioPortalClient_init key url = Ok c1 ->
  BioPortalClient_init key (url ++ slashes n) = Ok c2 ->
  _url urlencode c2 (slashes m ++ path) params = _url urlencode c1 path params
  /\ _url urlencode c1 path None
     = rstrip_slash url ++ "/" ++ lstrip_slash path
  /\ _url urlencode c1 path (Some []) = _url urlencode c1 path None.
Proof.
  unfold BioPortalClient_init. destruct (truthy key); [|done].
  intros [= <-] [= <-]. unfold _url. simpl.
  by rewrite rstrip_slash_app_slashes, lstrip_slash_app_slashes.
Qed.

Lemma url_join_ignores_slashes_witness :
  _url (fun _ => "") {| api_key := "key"; base_url := BASE_URL |}
       "//annotator" None
  = _url (fun _ => "") {| api_key := "key"; base_url := BASE_URL |}
         "annotator" None.
Proof.
  exact (proj1 (url_join_ignores_slashes
                  (fun _ => "") "key" BASE_URL "annotator" 1 2 None
                  {| api_key := "key"; base_url := BASE_URL |}
                  {| api_key := "key"; base_url := BASE_URL |}
                  eq_refl eq_refl)).
Defined.

Lemma nonempty_Some o s : nonempty o = Some s <-> o = Some s /\ s <> "".
Proof.
  unfold nonempty, truthy. destruct o as [x|]; [|by split; [|intros []]].
  destruct (String.eqb_spec x "") as [->|Hx]; simpl.
  - split; [done|]. by intros [[= <-] H].
  - split; [by intros [= <-]|by intros [[= <-] _]].
Qed.

(** X19: a key that [get_api_key] returns is not empty, is the value of
    the variable when the variable is set and the fallback otherwise,
    and is accepted by the constructor of the client; a variable that
    is set to the empty string hides the fallback, and the call
    fails. *)
Theorem get_api_key_result (env : gmap string string) (env_var : string)
    (fallback : option string) :
  (forall key,
     get_api_key env env_var fallback = Ok key ->
     key <> ""
     /\ (env !! env_var = Some key
         \/ env !! env_var = None /\ fallback = Some key)
     /\ exists c, BioPortalClient_init key BASE_URL = Ok c /\ api_key c = key)
  /\ (env !! env_var = Some "" ->
      exists msg, get_api_key env env_var fallback = Err (RuntimeError msg)).
Proof.
  unfold get_api_key. split.
  - intros key H.
    destruct (nonempty _) as [k|] eqn:Hk; [|done]. injection H as ->.
    apply nonempty_Some in Hk as [Hk Hne]. split; [done|]. split.
    + destruct (env !! env_var) as [value|]; [by left|by right].
    + unfold BioPortalClient_init, truthy.
      destruct (String.eqb_spec key ""); [done|]. simpl. eauto.
  - intros ->. simpl. eauto.
Qed.

Lemma get_api_key_result_witness :
  exists msg,
    get_api_key {[ ENV_API_KEY := "" ]} ENV_API_KEY (Some "fallback")
    = Err (RuntimeError msg).
Proof.
  exact (proj2 (get_api_key_result {[ ENV_API_KEY := "" ]} ENV_API_KEY
                  (Some "fallback")) eq_refl).
Defined.

(** X20: [to_dict] loses nothing: two outcomes with the same dictionary
    are the same outcome. *)
Theorem to_dict_injective (o1 o2 : AnnotationOutcome) :
  to_dict o1 = to_dict o2 -> o1 = o2.
Proof.
  destruct o1, o2. unfold to_dict. simpl. by intros [= -> -> -> -> ->].
Qed.

Lemma to_dict_injective_witness :
  not_matched "unicorn horn"
  = {| input_text := "unicorn horn";
       standardized_term := None;
       ontology_id := None;
       ontology_version := None;
       comment := "not matched at all" |}.
Proof. apply to_dict_injective. reflexivity. Defined.

Lemma serialize_each_dicts items : forall acc,
  ~ In Neither items ->
  exists dicts,
    serialize_each items acc = Completed (acc ++ dicts)%list
    /\ Forall2 (fun i d => item_dict i = Some d) items dicts.
Proof.
  induction items as [|i items IH]; intros acc Hno.
  - exists []. by rewrite app_nil_r.
  - assert (Hrest : ~ In Neither items) by (intros H; apply Hno; by right).
    destruct i as [o|d|]; [| |exfalso; apply Hno; by left]; simpl.
    + destruct (IH (acc ++ [to_dict o])%list Hrest) as (dicts & -> & Hf).
      exists (to_dict o :: dicts). rewrite <- app_assoc. by split; [|constructor].
    + destruct (IH (acc ++ [d])%list Hrest) as (dicts & -> & Hf).
      exists (d :: dicts). rewrite <- app_assoc. by split; [|constructor].
Qed.

Lemma serialize_each_neither items : forall acc,
  In Neither items ->
  serialize_each items acc
  = Failed (TypeError
              "outcomes_to_json expects items with to_dict() or dictionaries.").
Proof.
  induction items as [|i items IH]; intros acc Hin; [done|].
  destruct i as [o|d|]; simpl; [| |done];
    apply IH; by destruct Hin as [|Hin].
Qed.

Lemma serialize_each_outcomes outcomes : forall acc,
  serialize_each (map HasToDict outcomes) acc
  = Completed (acc ++ map to_dict outcomes)%list.
Proof.
  induction outcomes as [|o outcomes IH]; intros acc; simpl.
  - by rewrite app_nil_r.
  - by rewrite IH, <- app_assoc.
Qed.

(** X21: [outcomes_to_json] fails with a [TypeError] when an item is
    neither an object with [to_dict] nor a dictionary, wherever the
    item stands; otherwise it prints one dictionary per item, in order:
    that of [to_dict] for an outcome, the dictionary itself for a
    dictionary. *)
Theorem outcomes_to_json_result
    (dumps : list (list (string * option string)) -> string)
    (items : list Item) :
  (In Neither items ->
   outcomes_to_json dumps items
   = Failed (TypeError
               "outcomes_to_json expects items with to_dict() or dictionaries."))
  /\ (~ In Neither items ->
      exists dicts,
        outcomes_to_json dumps items = Completed (dumps dicts)
        /\ Forall2 (fun i d => item_dict i = Some d) items dicts).
Proof.
  unfold outcomes_to_json. split.
  - intros Hin. by rewrite serialize_each_neither.
  - intros Hno. destruct (serialize_each_dicts items [] Hno) as (dicts & -> & Hf).
    by exists dicts.
Qed.

Lemma outcomes_to_json_result_witness :
  outcomes_to_json DemoCli.dumps [HasToDict (not_matched "cell"); Neither]
  = Failed (TypeError
              "outcomes_to_json expects items with to_dict() or dictionaries.").
Proof.
  apply (outcomes_to_json_result DemoCli.dumps
           [HasToDict (not_matched "cell"); Neither]).
  right. left. reflexivity.
Defined.

Lemma resolve_version_strict_no_fallback w t ontology version
    on_version_missing subs st res st' :
  on_version_missing <> "latest" ->
  resolve_version w t ontology version on_version_missing subs st
  = (Ok res, st') ->
  version_fallback res = false.
Proof.
  intros Hp H. apply String.eqb_neq in Hp.
  destruct (version_found version subs) eqn:Hf.
  - apply resolve_version_lexicon in H. rewrite Hf in H. by destruct H.
  - unfold version_found in Hf. unfold resolve_version in H.
    destruct (nonempty version) as [v|].
    + apply filter_nil_existsb in Hf. rewrite Hf, Hp in H. done.
    + by injection H as <- _.
Qed.

Lemma evaluate_candidate_strict version on_version_missing latest res
    term top :
  on_version_missing <> "latest" ->
  version_fallback res = false ->
  In (comment (evaluate_candidate version on_version_missing latest res
                 term top)) strict_comments.
Proof.
  intros Hp Hfb. apply String.eqb_neq in Hp. unfold evaluate_candidate.
  destruct (verify_candidate _ _ _) as [in_spec owl_label].
  rewrite Hfb, Hp.
  destruct (otruthy version), in_spec; simpl; tauto.
Qed.

(** X22: under the strict policy a call that returns gives no outcome
    either of the two comments of a fallback to the latest version. *)
Theorem strict_policy_never_falls_back
    (w : World) (t : OntologyTagger) (ontology : string)
    (terms : option (list (option string))) (file_path : option string)
    (requested : option string) (on_version_missing : string)
    (st st' : State) (outcomes : list AnnotationOutcome) :
  on_version_missing <> "latest" ->
  annotate_terms w t ontology terms file_path requested on_version_missing st
  = (Ok outcomes, st') ->
  Forall (fun o => In (comment o) strict_comments) outcomes.
Proof.
  intros Hp H.
  destruct (normalize_terms terms file_path st) as [[prepared|e] st0] eqn:Hn.
  2: { unfold annotate_terms, bind in H. by rewrite Hn in H. }
  pose proof (normalize_terms_state _ _ _ _ _ Hn) as ->.
  destruct (annotate_terms_outcomes _ _ _ _ _ _ _ _ _ _ _ Hn H)
    as (latest & res & Hf & Hres).
  destruct prepared as [|term rest]; [inversion Hf; constructor|].
  destruct (Hres ltac:(done)) as (subs & st1 & _ & _ & Hr).
  apply resolve_version_strict_no_fallback in Hr; [|done].
  eapply Forall2_Forall_right; [exact Hf|].
  intros term' o Ho. unfold outcome_of in Ho.
  destruct (remote_annotator w term' ontology) as [[|top tl]|e]; [| |done].
  - subst o. by left.
  - subst o. by apply evaluate_candidate_strict.
Qed.

Lemma strict_policy_never_falls_back_witness :
  Forall (fun o => In (comment o) strict_comments)
         [ {| input_text := "neuron";
              standardized_term := None;
              ontology_id := Some "CL_0000540";
              ontology_version := Some "2023-01-01";
              comment := "strict mode: not matched in specified version" |} ].
Proof.
  apply (strict_policy_never_falls_back
           Demo.world Demo.tagger "CL" (Some [Some "neuron"]) None
           (Some "2023-01-01") "error" Demo.fresh
           (snd (annotate_terms Demo.world Demo.tagger "CL"
                                (Some [Some "neuron"]) None
                                (Some "2023-01-01") "error" Demo.fresh))).
  - discriminate.
  - vm_compute. reflexivity.
Defined.

Lemma get_api_key_client env key :
  get_api_key env ENV_API_KEY None = Ok key ->
  BioPortalClient_init key BASE_URL
  = Ok {| api_key := key; base_url := BASE_URL |}.
Proof.
  unfold get_api_key. intros H.
  destruct (nonempty _) as [k|] eqn:Hk; [|done]. injection H as ->.
  apply nonempty_Some in Hk as [_ Hne].
  unfold BioPortalClient_init, truthy.
  by destruct (String.eqb_spec key "").
Qed.

Lemma outcomes_to_json_outcomes dumps outcomes :
  outcomes_to_json dumps (map HasToDict outcomes)
  = Completed (dumps (map to_dict outcomes)).
Proof. unfold outcomes_to_json. by rewrite serialize_each_outcomes. Qed.

(** X23: [main] exits at once, with the state as it was, when the
    arguments hold neither terms nor a file, whether or not a key is
    set; with something to annotate and no key it fails with the error
    of [get_api_key], again before any remote operation; with a key it
    runs [annotate_terms] under the strict policy with a client for
    the fixed base URL, and prints the dictionaries of the outcomes or
    fails with the error of the call. *)
Theorem main_runs
    (w : World) (dumps : list (list (string * option string)) -> string)
    (env : gmap string string) (args : Args) (st : State) :
  (nothing_to_annotate args = true ->
   main w dumps env args st
   = (Failed (SystemExit "Provide --terms or --file with terms to annotate."),
      st))
  /\ (nothing_to_annotate args = false ->
      (forall e,
         get_api_key env ENV_API_KEY None = Err e ->
         main w dumps env args st = (Failed (Raised e), st))
      /\ (forall key,
            get_api_key env ENV_API_KEY None = Ok key ->
            main w dumps env args st
            = match annotate_terms w
                      {| client := {| api_key := key; base_url := BASE_URL |};
                         downloads_dir := arg_downloads_dir args |}
                      (arg_ontology args) (map Some <$> arg_terms args)
                      (arg_file args) (arg_version args) "error" st with
              | (Ok outcomes, st') =>
                  (Completed (dumps (map to_dict outcomes)), st')
              | (Err e, st') => (Failed (Raised e), st')
              end)).
Proof.
  unfold main. split; [by intros ->|]. intros ->. split.
  - by intros e ->.
  - intros key Hk. rewrite Hk, (get_api_key_client _ _ Hk).
    destruct (annotate_terms _ _ _ _ _ _ _ _) as [[outcomes|e] st'];
      [|done].
    by rewrite outcomes_to_json_outcomes.
Qed.

Lemma main_runs_witness :
  main Demo.world DemoCli.dumps DemoCli.env DemoCli.args Demo.fresh
  = (Completed "2 objects",
     logged_all [ListSubmissions "CL"; AnnotateText "cell" "CL";
                 AnnotateText "unicorn horn" "CL"] Demo.fresh).
Proof.
  rewrite (proj2 (proj2 (main_runs Demo.world DemoCli.dumps DemoCli.env
                           DemoCli.args Demo.fresh) eq_refl)
                 "key" eq_refl).
  reflexivity.
Defined.

(** X24: [main] never fails with the [TypeError] of
    [outcomes_to_json]; what it prints is the dictionaries of outcomes
    whose comments are those of the strict policy; and once past its
    own check of the arguments, [normalize_terms] does not raise its
    error for missing inputs. *)
Theorem main_never
    (w : World) (dumps : list (list (string * option string)) -> string)
    (env : gmap string string) (args : Args) (st st' : State)
    (r : Exit string) :
  main w dumps env args st = (r, st') ->
  (forall msg, r <> Failed (TypeError msg))
  /\ (forall out,
        r = Completed out ->
        exists outcomes,
          out = dumps (map to_dict outcomes)
          /\ Forall (fun o => In (comment o) strict_comments) outcomes)
  /\ (nothing_to_annotate args = false ->
      normalize_terms (map Some <$> arg_terms args) (arg_file args) st
      <> (Err (ValueError "Provide either `terms` or `file_path`."), st)).
Proof.
  intros H. split; [|split].
  - intros msg ->. unfold main in H.
    destruct (nothing_to_annotate args); [done|].
    destruct (get_api_key env ENV_API_KEY None) as [key|e] eqn:Hk; [|done].
    rewrite (get_api_key_client _ _ Hk) in H.
    destruct (annotate_terms _ _ _ _ _ _ _ _) as [[outcomes|e] st1];
      [|done].
    by rewrite outcomes_to_json_outcomes in H.
  - intros out ->. unfold main in H.
    destruct (nothing_to_annotate args); [done|].
    destruct (get_api_key env ENV_API_KEY None) as [key|e] eqn:Hk; [|done].
    rewrite (get_api_key_client _ _ Hk) in H.
    destruct (annotate_terms _ _ _ _ _ _ _ _) as [[outcomes|e] st1] eqn:Ha;
      [|done].
    rewrite outcomes_to_json_outcomes in H. injection H as <- <-.
    exists outcomes. split; [done|].
    destruct (normalize_terms (map Some <$> arg_terms args) (arg_file args)
                st) as [[prepared|e] st0] eqn:Hn.
    2: { unfold annotate_terms, bind in Ha. by rewrite Hn in Ha. }
    pose proof (normalize_terms_state _ _ _ _ _ Hn) as ->.
    destruct (annotate_terms_outcomes _ _ _ _ _ _ _ _ _ _ _ Hn Ha)
      as (latest & res & Hf & Hres).
    destruct prepared as [|term rest]; [inversion Hf; constructor|].
    destruct (Hres ltac:(done)) as (subs & st2 & _ & _ & Hr).
    apply resolve_version_strict_no_fallback in Hr; [|discriminate].
    eapply Forall2_Forall_right; [exact Hf|].
    intros term' o Ho. unfold outcome_of in Ho.
    destruct (remote_annotator w term' (arg_ontology args))
      as [[|top tl]|e]; [| |done].
    + subst o. by left.
    + subst o. by apply evaluate_candidate_strict.
  - intros Hn. unfold nothing_to_annotate in Hn. unfold normalize_terms.
    destruct (arg_terms args) as [[|term rest]|], (arg_file args) as [p|];
      simpl; try done; unfold bind, read_text;
      destruct (files st !! p); done.
Qed.

Lemma main_never_witness :
  exists outcomes,
    "2 objects" = DemoCli.dumps (map to_dict outcomes)
    /\ Forall (fun o => In (comment o) strict_comments) outcomes.
Proof.
  destruct (main_never Demo.world DemoCli.dumps DemoCli.env DemoCli.args
              Demo.fresh
              (logged_all [ListSubmissions "CL"; AnnotateText "cell" "CL";
                           AnnotateText "unicorn horn" "CL"] Demo.fresh)
              (Completed "2 objects"))
    as (_ & Hout & _).
  - vm_compute. reflexivity.
  - exact (Hout "2 objects" eq_refl).
Defined.
